(** * Office supply agent: the mock ledger and its tools

    A shallow embedding of [examples/langchain-baseten/office_supply_agent.py].
    The two module-level dictionaries [INVENTORY] and [COMPANY_BUDGET] are the
    whole mutable state of the program; every tool is a function from that
    state to a result and a new state.

    Modelling choices.
    - The tools are embedded twice.  In the first embedding money is counted
      in cents, as an integer: the catalogue prices and the seeded budget are
      whole numbers of cents and the arithmetic is exact.  It carries the
      statements that hold whichever way rounding goes: what a tool may
      write, what a name resolves to, what a second call sees.  In the
      second embedding, module [B64], the amounts are the binary64 numbers
      Python computes with, infinities, NaN and the OverflowError of the
      conversion included.  It carries the statements in which the outcome
      of a funds check or the sign of an amount matters.
    - [quantity] is a Python [int], hence unbounded: [Z].
    - A Python dict iterates in insertion order and the tools depend on that
      order, so the inventory is an association list.
    - A string is a sequence of code points below 256 (Latin-1), on which
      [lower], [strip] and [in] are Python's; names with other code points
      are not represented.
    - The return value of a tool is a formatted message; the model keeps the
      values that are formatted into it, one constructor per message.
    - [hl.require_approval()] comes from an external package.  A denied call
      never runs the function body, so the model describes the calls that
      were approved. *)

From Stdlib Require Import ZArith List String Ascii Bool Lia.
From Stdlib Require Import Floats Uint63.

(* The decimal prices are read as the nearest binary64 values, as Python
   reads them. *)
Set Warnings "-inexact-float".
Import ListNotations.
Open Scope string_scope.
Open Scope Z_scope.

(** ** Strings as Python uses them here *)

Module PyStr.

(** [str.lower] on one character.  A character is a code point below 256:
    A-Z are moved to a-z and the capital letters of Latin-1 (U+00C0 to
    U+00DE, the multiplication sign U+00D7 apart) to their small forms. *)
Definition lower_char (c : ascii) : ascii :=
  let n := nat_of_ascii c in
  if ((Nat.leb 65 n && Nat.leb n 90) ||
      (Nat.leb 192 n && Nat.leb n 222 && negb (Nat.eqb n 215)))%bool
  then ascii_of_nat (n + 32) else c.

Fixpoint lower (s : string) : string :=
  match s with
  | EmptyString => EmptyString
  | String c s' => String (lower_char c) (lower s')
  end.

(** The characters [str.strip()] removes, among the code points below 256:
    tab, line feed, vertical tab, form feed, carriage return, the four
    separators U+001C to U+001F, the space, next line U+0085 and the
    no-break space U+00A0. *)
Definition is_space (c : ascii) : bool :=
  let n := nat_of_ascii c in
  ((Nat.leb 9 n && Nat.leb n 13) || (Nat.leb 28 n && Nat.leb n 32) ||
   Nat.eqb n 133 || Nat.eqb n 160)%bool.

Definition is_empty (s : string) : bool :=
  match s with EmptyString => true | String _ _ => false end.

Fixpoint lstrip (s : string) : string :=
  match s with
  | EmptyString => EmptyString
  | String c s' => if is_space c then lstrip s' else s
  end.

Fixpoint rstrip (s : string) : string :=
  match s with
  | EmptyString => EmptyString
  | String c s' =>
      let r := rstrip s' in
      if (is_space c && is_empty r)%bool then EmptyString else String c r
  end.

Definition strip (s : string) : string := rstrip (lstrip s).

(** [sub in s]: [sub] occurs in [s] as a contiguous run of characters. *)
Fixpoint contains (sub s : string) : bool :=
  (prefix sub s ||
   match s with
   | EmptyString => false
   | String _ s' => contains sub s'
   end)%bool.

End PyStr.

(** ** The ledger *)

Record item_info := mk_info { stock : Z; price : Z }.

Definition inventory := list (string * item_info).

Record budget := mk_budget { remaining : Z; monthly_limit : Z }.

Record ledger := mk_ledger { inv : inventory; bud : budget }.

Definition INVENTORY : inventory :=
  [ ("paper clips",    mk_info 500   1299);
    ("pens",           mk_info 200    850);
    ("staplers",       mk_info  50   2499);
    ("coffee",         mk_info  30   1599);
    ("desk chairs",    mk_info  15  14999);
    ("standing desks", mk_info   8  29999);
    ("coffee machine", mk_info   3  79999);
    ("gaming chair",   mk_info   2 129999);
    ("executive desk", mk_info   1 249999) ].

Definition COMPANY_BUDGET : budget := mk_budget 500000 500000.

Definition seeded : ledger := mk_ledger INVENTORY COMPANY_BUDGET.

(** [INVENTORY[key]["stock"] -= n]: the entry under [key] is updated in
    place, the order of the dictionary is kept. *)
Fixpoint sub_stock (key : string) (n : Z) (items : inventory) : inventory :=
  match items with
  | [] => []
  | (k, info) :: rest =>
      if String.eqb k key
      then (k, mk_info (stock info - n) (price info)) :: rest
      else (k, info) :: sub_stock key n rest
  end.

(** [COMPANY_BUDGET["remaining"] -= cost] *)
Definition debit (cost : Z) (b : budget) : budget :=
  mk_budget (remaining b - cost) (monthly_limit b).

(** [inventory[key]], where a missing key is reported as [None]. *)
Fixpoint lookup (key : string) (items : inventory) : option item_info :=
  match items with
  | [] => None
  | (k, info) :: rest => if String.eqb k key then Some info else lookup key rest
  end.

(** ** The loop shared by the tools

    [[
    for key, info in INVENTORY.items():
        if item_key in key or key in item_key:
            ... return ...
    return ...
    ]]
    Every path through the body of the [if] returns, so the loop runs the
    body at the first entry that passes the test, or falls through. *)

Definition fuzzy_match (item_key key : string) : bool :=
  (PyStr.contains item_key key || PyStr.contains key item_key)%bool.

Fixpoint for_items {A : Type} (items : inventory) (item_key : string)
  (body : string -> item_info -> A) (fallthrough : A) : A :=
  match items with
  | [] => fallthrough
  | (key, info) :: rest =>
      if fuzzy_match item_key key then body key info
      else for_items rest item_key body fallthrough
  end.

(** ** Results

    One constructor per message a tool can return; the arguments are the
    values interpolated into the message. *)

Inductive outcome : Type :=
| InStock (item : string) (units unit_price : Z)
| NotFound (item : string)
| BudgetStatus (remaining_now limit : Z)
| RecentPurchases (recent : list string)
| Purchased (quantity : Z) (item : string) (total_cost remaining_now : Z)
| InsufficientBudget (need have : Z)
| UseBasicInstead (item : string) (cost : Z)
| PurchasedExpensive (item : string) (cost : Z) (justification : string)
    (remaining_now : Z)
| PurchasedLuxury (item vendor : string) (price_paid : Z)
    (justification : string) (remaining_now : Z)
| EmergencyApproved (amount : Z) (reason : string) (limit remaining_now : Z)
| ZeroDivisionError.

(** What a caller can tell from a result once the text is set aside. *)
Inductive verdict : Type :=
| Info | Committed | RejectedNotFound | RejectedFunds | Redirected | Raised.

Definition decision (o : outcome) : verdict :=
  match o with
  | InStock _ _ _ | BudgetStatus _ _ | RecentPurchases _ => Info
  | NotFound _ => RejectedNotFound
  | Purchased _ _ _ _ | PurchasedExpensive _ _ _ _
  | PurchasedLuxury _ _ _ _ _ | EmergencyApproved _ _ _ _ => Committed
  | InsufficientBudget _ _ => RejectedFunds
  | UseBasicInstead _ _ => Redirected
  | ZeroDivisionError => Raised
  end.

(** ** Tools that need no approval *)

Definition check_inventory (item : string) (s : ledger) : outcome * ledger :=
  let item_key := PyStr.strip (PyStr.lower item) in
  for_items (inv s) item_key
    (fun key info => (InStock item (stock info) (price info), s))
    (NotFound item, s).

(** [percentage = (remaining / limit) * 100] raises when the limit is zero;
    the percentage itself is derived from the two amounts reported. *)
Definition get_budget (s : ledger) : outcome * ledger :=
  let remaining_now := remaining (bud s) in
  let limit := monthly_limit (bud s) in
  if limit =? 0 then (ZeroDivisionError, s)
  else (BudgetStatus remaining_now limit, s).

Definition check_recent_purchases (s : ledger) : outcome * ledger :=
  let recent :=
    [ "Paper clips (500 units) - $12.99";
      "Coffee pods (50 count) - $24.99";
      "Sticky notes (pack of 10) - $8.50" ] in
  (RecentPurchases recent, s).

(** ** Tools behind the approval gate *)

Definition purchase_basic_item (item : string) (quantity : Z) (s : ledger)
  : outcome * ledger :=
  let item_key := PyStr.strip (PyStr.lower item) in
  for_items (inv s) item_key
    (fun key info =>
       let total_cost := quantity * price info in
       if remaining (bud s) >=? total_cost then
         let b' := debit total_cost (bud s) in
         let s' := mk_ledger (sub_stock key quantity (inv s)) b' in
         (Purchased quantity item total_cost (remaining b'), s')
       else
         (InsufficientBudget total_cost (remaining (bud s)), s))
    (NotFound item, s).

Definition purchase_expensive_item (item justification : string) (s : ledger)
  : outcome * ledger :=
  let item_key := PyStr.strip (PyStr.lower item) in
  for_items (inv s) item_key
    (fun key info =>
       let cost := price info in
       if cost <=? 20000 then (UseBasicInstead item cost, s)
       else if remaining (bud s) >=? cost then
         let b' := debit cost (bud s) in
         let s' := mk_ledger (sub_stock key 1 (inv s)) b' in
         (PurchasedExpensive item cost justification (remaining b'), s')
       else
         (InsufficientBudget cost (remaining (bud s)), s))
    (NotFound item, s).

Definition purchase_luxury_item (item : string) (price_asked : Z)
  (vendor justification : string) (s : ledger) : outcome * ledger :=
  if remaining (bud s) >=? price_asked then
    let b' := debit price_asked (bud s) in
    (PurchasedLuxury item vendor price_asked justification (remaining b'),
     mk_ledger (inv s) b')
  else
    (InsufficientBudget price_asked (remaining (bud s)), s).

Definition emergency_budget_increase (amount : Z) (reason : string)
  (s : ledger) : outcome * ledger :=
  let b' := mk_budget (remaining (bud s) + amount)
                      (monthly_limit (bud s) + amount) in
  (EmergencyApproved amount reason (monthly_limit b') (remaining b'),
   mk_ledger (inv s) b').

(** ** Calls and sequences of calls *)

Inductive call : Type :=
| CheckInventory (item : string)
| GetBudget
| CheckRecentPurchases
| PurchaseBasicItem (item : string) (quantity : Z)
| PurchaseExpensiveItem (item justification : string)
| PurchaseLuxuryItem (item : string) (price_asked : Z)
    (vendor justification : string)
| EmergencyBudgetIncrease (amount : Z) (reason : string).

Definition exec (c : call) (s : ledger) : outcome * ledger :=
  match c with
  | CheckInventory item => check_inventory item s
  | GetBudget => get_budget s
  | CheckRecentPurchases => check_recent_purchases s
  | PurchaseBasicItem item quantity => purchase_basic_item item quantity s
  | PurchaseExpensiveItem item j => purchase_expensive_item item j s
  | PurchaseLuxuryItem item p vendor j => purchase_luxury_item item p vendor j s
  | EmergencyBudgetIncrease amount reason =>
      emergency_budget_increase amount reason s
  end.

Definition step (s : ledger) (c : call) : ledger := snd (exec c s).

Definition run (cs : list call) (s : ledger) : ledger := fold_left step cs s.

(** The results of a sequence of calls, in order. *)
Fixpoint results (cs : list call) (s : ledger) : list outcome :=
  match cs with
  | [] => []
  | c :: cs' => fst (exec c s) :: results cs' (step s c)
  end.

(** ** The lookup as the specification words it

    "Lowercases and strips the query, then returns the first catalogue entry,
    in iteration order, that the query matches by case-insensitive substring
    comparison with the catalogue key."  The words are taken as relations on
    strings, stated without the functions of [PyStr]: the letters and the
    blanks are tables, a substring is a middle part, and the comparison is
    taken both ways (one of the two strings occurs in the other). *)

Module Spec.






(** The code points [strip] removes. *)
Definition blanks : list nat := [9; 10; 11; 12; 13; 28; 29; 30; 31; 32; 133; 160]%nat.

Definition blank (c : ascii) : Prop := In (nat_of_ascii c) blanks.









End Spec.

(** The entry at which the loop of the source stops. *)
Definition first_match (item_key : string) (items : inventory)
  : option (string * item_info) :=
  for_items items item_key (fun key info => Some (key, info)) None.

Definition get_item (item : string) (items : inventory)
  : option (string * item_info) :=
  first_match (PyStr.strip (PyStr.lower item)) items.

(** ** Properties of ledgers *)

Definition prices_nonneg (items : inventory) : Prop :=
  Forall (fun entry => 0 <= price (snd entry)) items.

Definition stocks_nonneg (items : inventory) : Prop :=
  Forall (fun entry => 0 <= stock (snd entry)) items.


(** What no tool ever writes: the keys and the prices, in order. *)
Definition catalogue (items : inventory) : list (string * Z) :=
  map (fun entry => (fst entry, price (snd entry))) items.

(** ** Commits

    The only writes to the ledger, as a relation between the ledger before a
    call and the ledger after it. *)

Inductive commit (s : ledger) : call -> ledger -> Prop :=
| commit_basic item quantity key info :
    get_item item (inv s) = Some (key, info) ->
    quantity * price info <= remaining (bud s) ->
    commit s (PurchaseBasicItem item quantity)
      (mk_ledger (sub_stock key quantity (inv s))
         (debit (quantity * price info) (bud s)))
| commit_expensive item j key info :
    get_item item (inv s) = Some (key, info) ->
    20000 < price info ->
    price info <= remaining (bud s) ->
    commit s (PurchaseExpensiveItem item j)
      (mk_ledger (sub_stock key 1 (inv s)) (debit (price info) (bud s)))
| commit_luxury item p vendor j :
    p <= remaining (bud s) ->
    commit s (PurchaseLuxuryItem item p vendor j)
      (mk_ledger (inv s) (debit p (bud s)))
| commit_emergency amount reason :
    commit s (EmergencyBudgetIncrease amount reason)
      (mk_ledger (inv s)
         (mk_budget (remaining (bud s) + amount)
            (monthly_limit (bud s) + amount))).

(** ** Conditions on calls used in the statements below *)

(** The ledger has no debt and no negative stock. *)
Definition solvent (s : ledger) : Prop :=
  0 <= remaining (bud s) /\ stocks_nonneg (inv s).





(** A result with the echoed free text blanked. *)
Definition redact (o : outcome) : outcome :=
  match o with
  | PurchasedExpensive item cost _ r => PurchasedExpensive item cost EmptyString r
  | PurchasedLuxury item vendor p _ r => PurchasedLuxury item vendor p EmptyString r
  | EmergencyApproved amount _ limit r => EmergencyApproved amount EmptyString limit r
  | _ => o
  end.

(** ** Conditions and readings used by the further properties *)

Definition is_read (c : call) : bool :=
  match c with
  | CheckInventory _ | GetBudget | CheckRecentPurchases => true
  | _ => false
  end.

(** The key and the price a name resolves to. *)
Definition resolves (item : string) (items : inventory)
  : option (string * Z) :=
  option_map (fun entry => (fst entry, price (snd entry)))
    (get_item item items).

(** The tools that write a stock. *)
Definition writes_stock (c : call) : bool :=
  match c with
  | PurchaseBasicItem _ _ | PurchaseExpensiveItem _ _ => true
  | _ => false
  end.

(** The string does not begin with a character that [strip] removes. *)
Definition starts_clean (s : string) : bool :=
  match s with
  | EmptyString => true
  | String c _ => negb (PyStr.is_space c)
  end.

(** ** Agent set-up and the menu

    [os.getenv] is a lookup in the process environment.  [ChatOpenAI] and
    [initialize_agent] belong to external packages: together they are the
    parameter [build], which is given the arguments [create_agent] passes
    and returns an agent or raises.  [agent.run] and the console are
    external too. *)

Definition environ := string -> option string.

(** [not os.getenv(name)]: the variable is unset or set to the empty
    string. *)
Definition unset (env : environ) (name : string) : bool :=
  match env name with
  | None => true
  | Some value => PyStr.is_empty value
  end.

Inductive tool_name : Type :=
| tool_check_inventory | tool_get_budget | tool_check_recent_purchases
| tool_purchase_basic_item | tool_purchase_expensive_item
| tool_purchase_luxury_item | tool_emergency_budget_increase.

(** What the two constructors are given. *)
Record agent_request := mk_request {
  tools : list tool_name;
  model : string;
  temperature : float;
  base_url : string;
  api_key : option string;
  agent_type : string;
  verbose : bool;
  max_iterations : Z;
  handle_parsing_errors : bool }.

Definition request (env : environ) : agent_request :=
  mk_request
    [ tool_check_inventory; tool_get_budget; tool_check_recent_purchases;
      tool_purchase_basic_item; tool_purchase_expensive_item;
      tool_purchase_luxury_item; tool_emergency_budget_increase ]
    "deepseek-ai/DeepSeek-V3.1" 0.1%float "https://inference.baseten.co/v1"
    (env "BASETEN_API_KEY") "ZERO_SHOT_REACT_DESCRIPTION" true 5 true.

(** [inl] is the message of the exception that leaves the function: the
    ValueError of one of the two tests, or what a constructor raises. *)
Definition create_agent {A : Type} (build : agent_request -> string + A)
  (env : environ) : string + A :=
  if unset env "BASETEN_API_KEY"
  then inl "BASETEN_API_KEY environment variable is required!"
  else if unset env "HUMANLAYER_API_KEY"
  then inl "HUMANLAYER_API_KEY environment variable is required!"
  else build (request env).

(** The list [missing_vars] built at the start of the main block. *)
Definition missing_vars (env : environ) : list string :=
  ((if unset env "BASETEN_API_KEY" then ["BASETEN_API_KEY"] else []) ++
   (if unset env "HUMANLAYER_API_KEY" then ["HUMANLAYER_API_KEY"] else []))%list.

(** What a turn of the menu does: a demo that ran to its end, a message,
    or the exception that ends the process. *)
Inductive menu_event : Type :=
| NormalOperations | QuestionableDecisions | AgentGoneWild | InstagramReel
| InvalidChoice | Goodbye | EOFError | Uncaught (message : string).

(** [while True: choice = input(...).strip() ...]: one line of input per
    turn; [input] raises [EOFError] when the input is exhausted.  The three
    demos of the agent call [create_agent()] before their [try]: what it
    raises is caught nowhere and ends the loop.  [created] is the result of
    that call. *)
Fixpoint menu {A : Type} (created : string + A) (inputs : list string)
  : list menu_event :=
  match inputs with
  | [] => [EOFError]
  | line :: rest =>
      let choice := PyStr.strip line in
      let demo (ran : menu_event) :=
        match created with
        | inl message => [Uncaught message]
        | inr _ => ran :: menu created rest
        end in
      if String.eqb choice "1" then demo NormalOperations
      else if String.eqb choice "2" then demo QuestionableDecisions
      else if String.eqb choice "3" then demo AgentGoneWild
      else if String.eqb choice "4" then InstagramReel :: menu created rest
      else if String.eqb choice "5" then [Goodbye]
      else InvalidChoice :: menu created rest
  end.

(** The main block: [inl 1] is [exit(1)] before the menu is shown. *)
Definition main {A : Type} (build : agent_request -> string + A)
  (env : environ) (inputs : list string) : Z + list menu_event :=
  match missing_vars env with
  | [] => inr (menu (create_agent build env) inputs)
  | _ :: _ => inl 1
  end.

(** The turn of this choice is the last one. *)
Definition ends_menu {A : Type} (created : string + A) (choice : string)
  : bool :=
  (String.eqb choice "5" ||
   (match created with inl _ => true | inr _ => false end &&
    (String.eqb choice "1" || String.eqb choice "2" || String.eqb choice "3")))%bool.

(** The event of a turn after which the menu is shown again. *)
Definition turn (choice : string) : menu_event :=
  if String.eqb choice "1" then NormalOperations
  else if String.eqb choice "2" then QuestionableDecisions
  else if String.eqb choice "3" then AgentGoneWild
  else if String.eqb choice "4" then InstagramReel
  else InvalidChoice.

(** The event of the last turn. *)
Definition last_turn {A : Type} (created : string + A) (choice : string)
  : menu_event :=
  if String.eqb choice "5" then Goodbye
  else match created with
       | inl message => Uncaught message
       | inr _ => Goodbye
       end.

(** * The tools over binary64

    The ledger with its amounts as Python holds them: IEEE 754 binary64
    numbers, rounded to nearest with ties to even, with both infinities and
    NaN.  [x >= y] is the comparison of the standard, false whenever one
    side is NaN.  [quantity * price] first converts the integer; the
    conversion raises OverflowError when the integer is too large, before
    anything is written.  This is the model for every statement in which
    the outcome of a funds check, an overflow or a NaN matters. *)

Module B64.

Record item_info := mk_info { stock : Z; price : float }.

Definition inventory := list (string * item_info).

Record budget := mk_budget { remaining : float; monthly_limit : float }.

Record ledger := mk_ledger { inv : inventory; bud : budget }.

Definition INVENTORY : inventory :=
  [ ("paper clips",    mk_info 500   12.99%float);
    ("pens",           mk_info 200    8.50%float);
    ("staplers",       mk_info  50   24.99%float);
    ("coffee",         mk_info  30   15.99%float);
    ("desk chairs",    mk_info  15  149.99%float);
    ("standing desks", mk_info   8  299.99%float);
    ("coffee machine", mk_info   3  799.99%float);
    ("gaming chair",   mk_info   2 1299.99%float);
    ("executive desk", mk_info   1 2499.99%float) ].

Definition COMPANY_BUDGET : budget := mk_budget 5000%float 5000%float.

Definition seeded : ledger := mk_ledger INVENTORY COMPANY_BUDGET.

(** [float(n)] for a Python [int]: the nearest binary64, ties to even;
    [None] is the OverflowError raised when that would be an infinity. *)
Definition of_int (n : Z) : option float :=
  let f := SF2Prim (binary_normalize prec emax n 0 false) in
  if is_infinity f then None else Some f.

(** [INVENTORY[key]["stock"] -= n] *)
Fixpoint sub_stock (key : string) (n : Z) (items : inventory) : inventory :=
  match items with
  | [] => []
  | (k, info) :: rest =>
      if String.eqb k key
      then (k, mk_info (stock info - n) (price info)) :: rest
      else (k, info) :: sub_stock key n rest
  end.

(** [COMPANY_BUDGET["remaining"] -= cost] *)
Definition debit (cost : float) (b : budget) : budget :=
  mk_budget (remaining b - cost)%float (monthly_limit b).

Fixpoint lookup (key : string) (items : inventory) : option item_info :=
  match items with
  | [] => None
  | (k, info) :: rest => if String.eqb k key then Some info else lookup key rest
  end.

(** The loop of the tools, as above. *)
Fixpoint for_items {A : Type} (items : inventory) (item_key : string)
  (body : string -> item_info -> A) (fallthrough : A) : A :=
  match items with
  | [] => fallthrough
  | (key, info) :: rest =>
      if fuzzy_match item_key key then body key info
      else for_items rest item_key body fallthrough
  end.

Definition get_item (item : string) (items : inventory)
  : option (string * item_info) :=
  for_items items (PyStr.strip (PyStr.lower item))
    (fun key info => Some (key, info)) None.

(** One constructor per message, with the values handed to the f-string
    (which prints the amounts rounded to two decimals), and one for the
    exception of the conversion. *)
Inductive outcome : Type :=
| InStock (item : string) (units : Z) (unit_price : float)
| NotFound (item : string)
| Purchased (quantity : Z) (item : string) (total_cost remaining_now : float)
| InsufficientBudget (need have : float)
| UseBasicInstead (item : string) (cost : float)
| PurchasedExpensive (item : string) (cost : float) (justification : string)
    (remaining_now : float)
| PurchasedLuxury (item vendor : string) (price_paid : float)
    (justification : string) (remaining_now : float)
| EmergencyApproved (amount : float) (reason : string)
    (limit remaining_now : float)
| OverflowError.

Definition decision (o : outcome) : verdict :=
  match o with
  | InStock _ _ _ => Info
  | NotFound _ => RejectedNotFound
  | Purchased _ _ _ _ | PurchasedExpensive _ _ _ _
  | PurchasedLuxury _ _ _ _ _ | EmergencyApproved _ _ _ _ => Committed
  | InsufficientBudget _ _ => RejectedFunds
  | UseBasicInstead _ _ => Redirected
  | OverflowError => Raised
  end.

Definition check_inventory (item : string) (s : ledger) : outcome * ledger :=
  let item_key := PyStr.strip (PyStr.lower item) in
  for_items (inv s) item_key
    (fun key info => (InStock item (stock info) (price info), s))
    (NotFound item, s).

Definition purchase_basic_item (item : string) (quantity : Z) (s : ledger)
  : outcome * ledger :=
  let item_key := PyStr.strip (PyStr.lower item) in
  for_items (inv s) item_key
    (fun key info =>
       match of_int quantity with
       | None => (OverflowError, s)
       | Some q =>
           let total_cost := (q * price info)%float in
           if (total_cost <=? remaining (bud s))%float then
             let b' := debit total_cost (bud s) in
             let s' := mk_ledger (sub_stock key quantity (inv s)) b' in
             (Purchased quantity item total_cost (remaining b'), s')
           else
             (InsufficientBudget total_cost (remaining (bud s)), s)
       end)
    (NotFound item, s).

Definition purchase_expensive_item (item justification : string) (s : ledger)
  : outcome * ledger :=
  let item_key := PyStr.strip (PyStr.lower item) in
  for_items (inv s) item_key
    (fun key info =>
       let cost := price info in
       if (cost <=? 200)%float then (UseBasicInstead item cost, s)
       else if (cost <=? remaining (bud s))%float then
         let b' := debit cost (bud s) in
         let s' := mk_ledger (sub_stock key 1 (inv s)) b' in
         (PurchasedExpensive item cost justification (remaining b'), s')
       else
         (InsufficientBudget cost (remaining (bud s)), s))
    (NotFound item, s).

Definition purchase_luxury_item (item : string) (price_asked : float)
  (vendor justification : string) (s : ledger) : outcome * ledger :=
  if (price_asked <=? remaining (bud s))%float then
    let b' := debit price_asked (bud s) in
    (PurchasedLuxury item vendor price_asked justification (remaining b'),
     mk_ledger (inv s) b')
  else
    (InsufficientBudget price_asked (remaining (bud s)), s).

Definition emergency_budget_increase (amount : float) (reason : string)
  (s : ledger) : outcome * ledger :=
  let b' := mk_budget (remaining (bud s) + amount)%float
                      (monthly_limit (bud s) + amount)%float in
  (EmergencyApproved amount reason (monthly_limit b') (remaining b'),
   mk_ledger (inv s) b').

Inductive call : Type :=
| CheckInventory (item : string)
| PurchaseBasicItem (item : string) (quantity : Z)
| PurchaseExpensiveItem (item justification : string)
| PurchaseLuxuryItem (item : string) (price_asked : float)
    (vendor justification : string)
| EmergencyBudgetIncrease (amount : float) (reason : string).

Definition exec (c : call) (s : ledger) : outcome * ledger :=
  match c with
  | CheckInventory item => check_inventory item s
  | PurchaseBasicItem item quantity => purchase_basic_item item quantity s
  | PurchaseExpensiveItem item j => purchase_expensive_item item j s
  | PurchaseLuxuryItem item p vendor j => purchase_luxury_item item p vendor j s
  | EmergencyBudgetIncrease amount reason =>
      emergency_budget_increase amount reason s
  end.

Definition step (s : ledger) (c : call) : ledger := snd (exec c s).

Definition run (cs : list call) (s : ledger) : ledger := fold_left step cs s.

(** ** Conditions used in the statements *)

Definition budget_nonneg (s : ledger) : Prop :=
  (0 <=? remaining (bud s))%float = true.

Definition stocks_nonneg (items : inventory) : Prop :=
  Forall (fun entry => 0 <= stock (snd entry)) items.

(** No price of the catalogue is plus infinity. *)
Definition prices_below_infinity (items : inventory) : Prop :=
  Forall (fun entry => (price (snd entry) =? infinity)%float = false) items.

(** The call cannot subtract plus infinity from the budget, nor add a
    negative amount or NaN to it: an emergency amount is at least 0, a
    luxury price is not plus infinity, and the product of a basic purchase
    does not overflow to plus infinity. *)
Definition keeps_budget (s : ledger) (c : call) : bool :=
  match c with
  | EmergencyBudgetIncrease amount _ => (0 <=? amount)%float
  | PurchaseLuxuryItem _ price_asked _ _ =>
      negb (price_asked =? infinity)%float
  | PurchaseBasicItem item quantity =>
      match get_item item (inv s), of_int quantity with
      | Some (_, info), Some q => negb (q * price info =? infinity)%float
      | _, _ => true
      end
  | _ => true
  end.

(** The call asks for no more units than the item it resolves to has. *)
Definition within_stock (s : ledger) (c : call) : bool :=
  match c with
  | PurchaseBasicItem item quantity =>
      match get_item item (inv s) with
      | Some (_, info) => quantity <=? stock info
      | None => true
      end
  | PurchaseExpensiveItem item _ =>
      match get_item item (inv s) with
      | Some (_, info) => 1 <=? stock info
      | None => true
      end
  | _ => true
  end.

(** The condition holds at every call of the sequence, each call being
    looked at in the ledger it runs in. *)
Fixpoint along (guard : ledger -> call -> bool) (cs : list call) (s : ledger)
  : bool :=
  match cs with
  | [] => true
  | c :: cs' => (guard s c && along guard cs' (step s c))%bool
  end.

End B64.

(** ** Readings of a binary64 value through its specification *)

(** Zero of either sign, a positive number or plus infinity. *)
Definition SFnonneg (x : spec_float) : bool :=
  match x with
  | S754_zero _ | S754_finite false _ _ | S754_infinity false => true
  | _ => false
  end.

(** Zero of either sign, a negative number or minus infinity. *)
Definition SFnonpos (x : spec_float) : bool :=
  match x with
  | S754_zero _ | S754_finite true _ _ | S754_infinity true => true
  | _ => false
  end.

(** Not NaN, and of sign [s]. *)
Definition SFsigned (s : bool) (x : spec_float) : bool :=
  match x with
  | S754_zero s' | S754_finite s' _ _ | S754_infinity s' => Bool.eqb s s'
  | S754_nan => false
  end.

(** * Proofs *)

(** ** Strings *)

Lemma lower_char_idem c : PyStr.lower_char (PyStr.lower_char c) = PyStr.lower_char c.
Proof. destruct c as [[] [] [] [] [] [] [] []]; reflexivity. Qed.

Lemma lower_idem s : PyStr.lower (PyStr.lower s) = PyStr.lower s.
Proof.
  induction s as [|c s IH]; simpl; [reflexivity|].
  now rewrite lower_char_idem, IH.
Qed.

Lemma lower_fixed_lstrip s :
  PyStr.lower s = s -> PyStr.lower (PyStr.lstrip s) = PyStr.lstrip s.
Proof.
  induction s as [|c s IH]; simpl; intros H; [reflexivity|].
  injection H as Hc Hs.
  destruct (PyStr.is_space c); [auto|].
  simpl. now rewrite Hc, Hs.
Qed.

Lemma lower_fixed_rstrip s :
  PyStr.lower s = s -> PyStr.lower (PyStr.rstrip s) = PyStr.rstrip s.
Proof.
  induction s as [|c s IH]; simpl; intros H; [reflexivity|].
  injection H as Hc Hs.
  destruct (PyStr.is_space c && PyStr.is_empty (PyStr.rstrip s))%bool;
    [reflexivity|].
  simpl. now rewrite Hc, IH.
Qed.

Lemma lower_item_key item :
  PyStr.lower (PyStr.strip (PyStr.lower item)) = PyStr.strip (PyStr.lower item).
Proof.
  unfold PyStr.strip.
  apply lower_fixed_rstrip, lower_fixed_lstrip, lower_idem.
Qed.

(** ** The loop and the entry it stops at *)

Lemma for_items_first_match {A : Type} items item_key
  (body : string -> item_info -> A) fallthrough :
  for_items items item_key body fallthrough =
  match first_match item_key items with
  | Some (key, info) => body key info
  | None => fallthrough
  end.
Proof.
  unfold first_match.
  induction items as [|[k i] rest IH]; simpl; [reflexivity|].
  destruct (fuzzy_match item_key k); [reflexivity | exact IH].
Qed.

Lemma first_match_split item_key items key info :
  first_match item_key items = Some (key, info) ->
  exists before after,
    items = (before ++ (key, info) :: after)%list /\
    fuzzy_match item_key key = true /\
    forallb (fun entry => negb (fuzzy_match item_key (fst entry))) before = true.
Proof.
  unfold first_match.
  induction items as [|[k i] rest IH]; simpl; [discriminate|].
  destruct (fuzzy_match item_key k) eqn:Hm.
  - intros [= <- <-]. exists [], rest. auto.
  - intros H. destruct (IH H) as (before & after & -> & Hk & Hb).
    exists ((k, i) :: before), after. simpl. rewrite Hm. auto.
Qed.


Lemma first_match_matches item_key items key info :
  first_match item_key items = Some (key, info) ->
  fuzzy_match item_key key = true.
Proof.
  intros H. destruct (first_match_split _ _ _ _ H) as (? & ? & ? & ? & ?).
  assumption.
Qed.


(** ** Writing a stock *)


Lemma lookup_sub_stock_other key key' n items :
  key' <> key ->
  lookup key' (sub_stock key n items) = lookup key' items.
Proof.
  intros Hne.
  induction items as [|[k i] rest IH]; simpl; [reflexivity|].
  destruct (String.eqb_spec k key) as [->|Hk]; simpl.
  - destruct (String.eqb_spec key key'); [congruence|reflexivity].
  - destruct (String.eqb_spec k key'); [reflexivity|exact IH].
Qed.

Lemma catalogue_sub_stock key n items :
  catalogue (sub_stock key n items) = catalogue items.
Proof.
  unfold catalogue.
  induction items as [|[k i] rest IH]; simpl; [reflexivity|].
  destruct (String.eqb k key); simpl; [reflexivity | now rewrite IH].
Qed.

Lemma first_match_sub_stock item_key items key info n :
  first_match item_key items = Some (key, info) ->
  first_match item_key (sub_stock key n items) =
  Some (key, mk_info (stock info - n) (price info)).
Proof.
  intros H. pose proof (first_match_matches _ _ _ _ H) as Hk. revert H.
  unfold first_match.
  induction items as [|[k i] rest IH]; simpl; [discriminate|].
  destruct (fuzzy_match item_key k) eqn:Hm.
  - intros [= <- <-]. rewrite String.eqb_refl. simpl. now rewrite Hm.
  - intros H. destruct (String.eqb_spec k key) as [->|_]; [congruence|].
    simpl. rewrite Hm. auto.
Qed.

(** ** Keys and prices *)


Lemma prices_nonneg_catalogue items items' :
  catalogue items = catalogue items' ->
  prices_nonneg items -> prices_nonneg items'.
Proof.
  unfold catalogue, prices_nonneg. revert items'.
  induction items as [|e rest IH]; intros [|e' rest']; simpl;
    try discriminate; intros H Hl; [constructor|].
  injection H as _ Hp Hrest. inversion Hl; subst.
  constructor; [congruence | eauto].
Qed.



Lemma prices_nonneg_INVENTORY : prices_nonneg INVENTORY.
Proof. repeat constructor; simpl; lia. Qed.

Lemma stocks_nonneg_INVENTORY : stocks_nonneg INVENTORY.
Proof. repeat constructor; simpl; lia. Qed.

(** ** What each tool does, case by case *)

(** Entering the loop of a tool at the entry it resolves to, and deciding
    the funds check. *)

Ltac enter_loop H :=
  rewrite for_items_first_match;
  match type of H with
  | get_item ?item ?items = _ =>
      change (first_match (PyStr.strip (PyStr.lower item)) items)
        with (get_item item items);
      rewrite H
  end.

Ltac funds_check :=
  rewrite Z.geb_leb;
  match goal with
  | |- context [?a <=? ?b] => destruct (Z.leb_spec a b); try lia
  end.

Lemma purchase_basic_item_not_found item quantity s :
  get_item item (inv s) = None ->
  purchase_basic_item item quantity s = (NotFound item, s).
Proof. intros H. unfold purchase_basic_item. now enter_loop H. Qed.

Lemma purchase_basic_item_commits item quantity s key info :
  get_item item (inv s) = Some (key, info) ->
  quantity * price info <= remaining (bud s) ->
  purchase_basic_item item quantity s =
  (Purchased quantity item (quantity * price info)
     (remaining (bud s) - quantity * price info),
   mk_ledger (sub_stock key quantity (inv s))
     (debit (quantity * price info) (bud s))).
Proof.
  intros H Hf. unfold purchase_basic_item. enter_loop H.
  funds_check. reflexivity.
Qed.

Lemma purchase_basic_item_short item quantity s key info :
  get_item item (inv s) = Some (key, info) ->
  remaining (bud s) < quantity * price info ->
  purchase_basic_item item quantity s =
  (InsufficientBudget (quantity * price info) (remaining (bud s)), s).
Proof.
  intros H Hf. unfold purchase_basic_item. enter_loop H.
  funds_check. reflexivity.
Qed.

Lemma purchase_expensive_item_not_found item j s :
  get_item item (inv s) = None ->
  purchase_expensive_item item j s = (NotFound item, s).
Proof. intros H. unfold purchase_expensive_item. now enter_loop H. Qed.

Lemma purchase_expensive_item_redirects item j s key info :
  get_item item (inv s) = Some (key, info) ->
  price info <= 20000 ->
  purchase_expensive_item item j s = (UseBasicInstead item (price info), s).
Proof.
  intros H Hp. unfold purchase_expensive_item. enter_loop H.
  destruct (Z.leb_spec (price info) 20000); [reflexivity | lia].
Qed.

Lemma purchase_expensive_item_commits item j s key info :
  get_item item (inv s) = Some (key, info) ->
  20000 < price info ->
  price info <= remaining (bud s) ->
  purchase_expensive_item item j s =
  (PurchasedExpensive item (price info) j (remaining (bud s) - price info),
   mk_ledger (sub_stock key 1 (inv s)) (debit (price info) (bud s))).
Proof.
  intros H Hp Hf. unfold purchase_expensive_item. enter_loop H.
  destruct (Z.leb_spec (price info) 20000); [lia|].
  funds_check. reflexivity.
Qed.

Lemma purchase_expensive_item_short item j s key info :
  get_item item (inv s) = Some (key, info) ->
  20000 < price info ->
  remaining (bud s) < price info ->
  purchase_expensive_item item j s =
  (InsufficientBudget (price info) (remaining (bud s)), s).
Proof.
  intros H Hp Hf. unfold purchase_expensive_item. enter_loop H.
  destruct (Z.leb_spec (price info) 20000); [lia|].
  funds_check. reflexivity.
Qed.

Lemma purchase_luxury_item_commits item p vendor j s :
  p <= remaining (bud s) ->
  purchase_luxury_item item p vendor j s =
  (PurchasedLuxury item vendor p j (remaining (bud s) - p),
   mk_ledger (inv s) (debit p (bud s))).
Proof. intros Hf. unfold purchase_luxury_item. funds_check. reflexivity. Qed.

Lemma purchase_luxury_item_short item p vendor j s :
  remaining (bud s) < p ->
  purchase_luxury_item item p vendor j s =
  (InsufficientBudget p (remaining (bud s)), s).
Proof. intros Hf. unfold purchase_luxury_item. funds_check. reflexivity. Qed.

(** ** Commits *)

(** A call either commits, or it leaves the ledger as it found it. *)
Lemma exec_cases c s :
  (decision (fst (exec c s)) = Committed /\ commit s c (step s c)) \/
  (decision (fst (exec c s)) <> Committed /\ step s c = s).
Proof.
  unfold step.
  destruct c as [item| | |item q|item j|item p vendor j|amount reason]; simpl.
  - right. unfold check_inventory. rewrite for_items_first_match.
    destruct (first_match _ _) as [[k i]|]; simpl; split; congruence.
  - right. unfold get_budget.
    destruct (monthly_limit (bud s) =? 0); simpl; split; congruence.
  - right. simpl. split; congruence.
  - destruct (get_item item (inv s)) as [[k i]|] eqn:H.
    + destruct (Z_le_gt_dec (q * price i) (remaining (bud s))) as [Hf|Hf].
      * left. rewrite (purchase_basic_item_commits _ _ _ _ _ H Hf). simpl.
        split; [reflexivity | now constructor].
      * right. rewrite (purchase_basic_item_short _ _ _ _ _ H) by lia.
        simpl. split; congruence.
    + right. rewrite (purchase_basic_item_not_found _ _ _ H).
      simpl. split; congruence.
  - destruct (get_item item (inv s)) as [[k i]|] eqn:H.
    + destruct (Z_le_gt_dec (price i) 20000) as [Hp|Hp].
      * right. rewrite (purchase_expensive_item_redirects _ _ _ _ _ H Hp).
        simpl. split; congruence.
      * destruct (Z_le_gt_dec (price i) (remaining (bud s))) as [Hf|Hf].
        -- left. rewrite (purchase_expensive_item_commits _ _ _ _ _ H) by lia.
           simpl. split; [reflexivity | constructor; auto; lia].
        -- right. rewrite (purchase_expensive_item_short _ _ _ _ _ H) by lia.
           simpl. split; congruence.
    + right. rewrite (purchase_expensive_item_not_found _ _ _ H).
      simpl. split; congruence.
  - destruct (Z_le_gt_dec p (remaining (bud s))) as [Hf|Hf].
    + left. rewrite (purchase_luxury_item_commits _ _ _ _ _ Hf). simpl.
      split; [reflexivity | now constructor].
    + right. rewrite purchase_luxury_item_short by lia.
      simpl. split; congruence.
  - left. split; [reflexivity | constructor].
Qed.

Lemma step_cases c s : commit s c (step s c) \/ step s c = s.
Proof. destruct (exec_cases c s) as [[_ H]|[_ H]]; auto. Qed.

(** No tool writes a key or a price. *)
Lemma catalogue_step s c : catalogue (inv (step s c)) = catalogue (inv s).
Proof.
  destruct (step_cases c s) as [H|H]; [|now rewrite H].
  inversion H; simpl; auto using catalogue_sub_stock.
Qed.

Lemma catalogue_run cs s : catalogue (inv (run cs s)) = catalogue (inv s).
Proof.
  revert s. induction cs as [|c cs IH]; intros s; simpl; [reflexivity|].
  now rewrite IH, catalogue_step.
Qed.


Lemma prices_nonneg_run cs : prices_nonneg (inv (run cs seeded)).
Proof.
  apply (prices_nonneg_catalogue INVENTORY).
  - symmetry. apply (catalogue_run cs seeded).
  - exact prices_nonneg_INVENTORY.
Qed.

Lemma stocks_nonneg_sub_stock key n items info :
  stocks_nonneg items ->
  lookup key items = Some info -> n <= stock info ->
  stocks_nonneg (sub_stock key n items).
Proof.
  induction 1 as [|[k i] rest Hs Hrest IH]; simpl; [constructor|].
  destruct (String.eqb k key).
  - intros [= ->] Hn. constructor; [simpl; lia | exact Hrest].
  - intros Hl Hn. constructor; [exact Hs | now apply IH].
Qed.

(** ** Sequences that overdraw the ledger *)

(** C1 fails as stated: sixteen desk chairs cost $2399.84, which the seeded
    budget covers, and the stock of fifteen drops to -1; an emergency
    increase of -$6000 leaves the remaining budget at -$1000. *)
Lemma sequences_reach_negative_stock_and_budget :
  lookup "desk chairs"
    (inv (run [PurchaseBasicItem "desk chairs" 16] seeded))
  = Some (mk_info (-1) 14999) /\
  ~ solvent (run [PurchaseBasicItem "desk chairs" 16] seeded) /\
  remaining (bud (run [EmergencyBudgetIncrease (-600000) "cut"] seeded))
  = -100000 /\
  ~ solvent (run [EmergencyBudgetIncrease (-600000) "cut"] seeded).
Proof.
  split; [reflexivity|]. split.
  - intros [_ H]. unfold stocks_nonneg in H. rewrite Forall_forall in H.
    specialize (H ("desk chairs", mk_info (-1) 14999)).
    vm_compute in H. apply H; [intuition|reflexivity].
  - split; [reflexivity|]. intros [H _]. vm_compute in H. now apply H.
Qed.

(** ** The funds check *)


(** ** Two executive desks *)

(** C3, as amended: from the seeded state the first purchase_expensive_item
    call for "executive desk" commits and leaves $2500.01; the second call
    commits as well, since $2499.99 fits and stock is never examined: the
    remaining budget drops to $0.02 and the stock of the desk to -1.  A third
    call is rejected for insufficient budget and leaves the ledger
    unchanged. *)
Theorem second_executive_desk_is_sold :
  let c := PurchaseExpensiveItem "executive desk" "corner office" in
  let s1 := step seeded c in
  let s2 := step s1 c in
  fst (exec c seeded)
  = PurchasedExpensive "executive desk" 249999 "corner office" 250001 /\
  remaining (bud s1) = 250001 /\
  lookup "executive desk" (inv s1) = Some (mk_info 0 249999) /\
  fst (exec c s1)
  = PurchasedExpensive "executive desk" 249999 "corner office" 2 /\
  remaining (bud s2) = 2 /\
  lookup "executive desk" (inv s2) = Some (mk_info (-1) 249999) /\
  exec c s2 = (InsufficientBudget 249999 2, s2).
Proof. vm_compute. repeat split. Qed.

(** C3 fails as stated: the second call is neither a not-found result nor
    any other rejection, and it changes the budget. *)
Lemma second_executive_desk_not_rejected :
  let c := PurchaseExpensiveItem "executive desk" "corner office" in
  let s1 := step seeded c in
  remaining (bud s1) = 250001 /\
  decision (fst (exec c s1)) = Committed /\
  decision (fst (exec c s1)) <> RejectedNotFound /\
  bud (step s1 c) <> bud s1.
Proof. vm_compute. repeat split; discriminate. Qed.

(** ** Negative quantities and prices *)

(** C4 fails as stated: purchase_basic_item with quantity -1 and
    purchase_luxury_item with price -$1.00 both commit from the seeded state
    and both change the ledger. *)
Lemma negative_arguments_change_the_ledger :
  exec (PurchaseBasicItem "pens" (-1)) seeded
  = (Purchased (-1) "pens" (-850) 500850,
     mk_ledger (sub_stock "pens" (-1) INVENTORY) (mk_budget 500850 500000)) /\
  lookup "pens" (inv (step seeded (PurchaseBasicItem "pens" (-1))))
  = Some (mk_info 201 850) /\
  step seeded (PurchaseBasicItem "pens" (-1)) <> seeded /\
  exec (PurchaseLuxuryItem "yacht" (-100) "Acme" "refund") seeded
  = (PurchasedLuxury "yacht" "Acme" (-100) "refund" 500100,
     mk_ledger INVENTORY (mk_budget 500100 500000)) /\
  step seeded (PurchaseLuxuryItem "yacht" (-100) "Acme" "refund") <> seeded.
Proof. vm_compute. repeat split; discriminate. Qed.

(** ** Delivering a request twice *)

(** C5 fails as stated: fifty paper clips delivered twice are bought twice;
    the two results differ and the ledger is written twice. *)
Lemma second_delivery_debits_again :
  let c := PurchaseBasicItem "paper clips" 50 in
  results [c; c] seeded
  = [Purchased 50 "paper clips" 64950 435050;
     Purchased 50 "paper clips" 64950 370100] /\
  remaining (bud (run [c] seeded)) = 435050 /\
  remaining (bud (run [c; c] seeded)) = 370100 /\
  lookup "paper clips" (inv (run [c] seeded)) = Some (mk_info 450 1299) /\
  lookup "paper clips" (inv (run [c; c] seeded)) = Some (mk_info 400 1299) /\
  fst (exec c (step seeded c)) <> fst (exec c seeded) /\
  run [c; c] seeded <> run [c] seeded.
Proof. vm_compute. repeat split; discriminate. Qed.

(** ** The free text *)

Lemma decision_redact o : decision (redact o) = decision o.
Proof. now destruct o. Qed.

(** C6: for a fixed item (item, price and vendor; amount) and a fixed
    ledger, two runs of purchase_expensive_item (purchase_luxury_item,
    emergency_budget_increase) that differ only in the justification (the
    reason) end in the same ledger, take the same decision, and return
    results that differ in nothing but the echoed text. *)
Theorem justification_does_not_interfere (s : ledger) :
  (forall item j1 j2,
     snd (purchase_expensive_item item j1 s)
     = snd (purchase_expensive_item item j2 s) /\
     decision (fst (purchase_expensive_item item j1 s))
     = decision (fst (purchase_expensive_item item j2 s)) /\
     redact (fst (purchase_expensive_item item j1 s))
     = redact (fst (purchase_expensive_item item j2 s)))
  /\
  (forall item p vendor j1 j2,
     snd (purchase_luxury_item item p vendor j1 s)
     = snd (purchase_luxury_item item p vendor j2 s) /\
     decision (fst (purchase_luxury_item item p vendor j1 s))
     = decision (fst (purchase_luxury_item item p vendor j2 s)) /\
     redact (fst (purchase_luxury_item item p vendor j1 s))
     = redact (fst (purchase_luxury_item item p vendor j2 s)))
  /\
  (forall amount r1 r2,
     snd (emergency_budget_increase amount r1 s)
     = snd (emergency_budget_increase amount r2 s) /\
     decision (fst (emergency_budget_increase amount r1 s))
     = decision (fst (emergency_budget_increase amount r2 s)) /\
     redact (fst (emergency_budget_increase amount r1 s))
     = redact (fst (emergency_budget_increase amount r2 s))).
Proof.
  split; [|split].
  - intros item j1 j2. unfold purchase_expensive_item.
    rewrite !for_items_first_match.
    destruct (first_match _ _) as [[k i]|]; [|auto].
    destruct (price i <=? 20000); [auto|].
    destruct (remaining (bud s) >=? price i); auto.
  - intros item p vendor j1 j2. unfold purchase_luxury_item.
    destruct (remaining (bud s) >=? p); auto.
  - intros amount r1 r2. unfold emergency_budget_increase. auto.
Qed.

(** ** What a call may write *)






(** ** Remaining budget against the monthly limit *)







(** ** Item lookup *)

(** The comparison runs both ways, and the first match hides later ones: a
    query that contains a key resolves to that key, so "blue pens" resolves
    to "pens" and "coffee machine" to "coffee", which precedes it; the empty
    query occurs in every key and resolves to the first entry. *)
Lemma lookup_examples :
  get_item "  Gaming CHAIR " INVENTORY
  = Some ("gaming chair", mk_info 2 129999) /\
  get_item "chair" INVENTORY = Some ("desk chairs", mk_info 15 14999) /\
  get_item "blue pens" INVENTORY = Some ("pens", mk_info 200 850) /\
  get_item "coffee machine" INVENTORY = Some ("coffee", mk_info 30 1599) /\
  get_item EmptyString INVENTORY = Some ("paper clips", mk_info 500 1299) /\
  get_item "toner" INVENTORY = None.
Proof. vm_compute. repeat split. Qed.

(** Called with the exact name of a catalogue entry, the lookup resolves to
    that entry for every entry but "coffee machine". *)
Lemma catalogue_names_resolve :
  map (fun entry => option_map fst (get_item (fst entry) INVENTORY)) INVENTORY
  = [ Some "paper clips"; Some "pens"; Some "staplers"; Some "coffee";
      Some "desk chairs"; Some "standing desks"; Some "coffee";
      Some "gaming chair"; Some "executive desk" ].
Proof. vm_compute. reflexivity. Qed.

(** ** One unit per expensive purchase *)



(** * Further properties of the tools *)

(** Every branch of a call, with the ledger it leaves. *)
Ltac tool_cases :=
  unfold step, exec, check_inventory, get_budget, check_recent_purchases,
    purchase_basic_item, purchase_expensive_item, purchase_luxury_item,
    emergency_budget_increase;
  rewrite ?for_items_first_match;
  repeat match goal with
    | |- context [match first_match ?q ?l with _ => _ end] =>
        let H := fresh "Hfound" in
        destruct (first_match q l) as [[? ?]|] eqn:H
    | |- context [if ?b then _ else _] =>
        let H := fresh "Htest" in destruct b eqn:H
    end;
  cbn [fst snd inv bud debit remaining monthly_limit decision].

(** ** Reads *)

Lemma read_step s c : is_read c = true -> step s c = s.
Proof. destruct c; try discriminate; intros _; now tool_cases. Qed.

(** X1: check_inventory, get_budget and check_recent_purchases never write:
    a sequence made of such calls only, of any length and in any order,
    leaves the inventory and the budget exactly as they were. *)
Theorem reads_never_write (cs : list call) (s : ledger) :
  forallb is_read cs = true -> run cs s = s.
Proof.
  revert s. induction cs as [|c cs IH]; intros s H; simpl; [reflexivity|].
  simpl in H. apply andb_prop in H as [Hc Hcs].
  rewrite (read_step s c Hc). now apply IH.
Qed.

Lemma reads_never_write_witness :
  run [CheckInventory "toner"; GetBudget; CheckInventory "PENS";
       CheckRecentPurchases; GetBudget] seeded = seeded.
Proof. apply reads_never_write. reflexivity. Defined.



(** ** What a name resolves to *)

Lemma first_match_catalogue item_key items items' :
  catalogue items = catalogue items' ->
  option_map (fun entry => (fst entry, price (snd entry)))
    (first_match item_key items)
  = option_map (fun entry => (fst entry, price (snd entry)))
      (first_match item_key items').
Proof.
  unfold catalogue, first_match. revert items'.
  induction items as [|[k i] rest IH]; intros [|[k' i'] rest']; simpl;
    try discriminate; [reflexivity|].
  intros [= <- Hp Hrest].
  destruct (fuzzy_match item_key k); simpl; [now rewrite Hp | auto].
Qed.

(** X3: the catalogue is fixed.  No sequence of calls adds, removes,
    renames or reorders an entry or changes a price; so a name resolves to
    the same key, at the same price, before and after any sequence of calls
    (only the stock it reports can differ). *)
Theorem names_resolve_alike_along_runs (cs : list call) (s : ledger) :
  catalogue (inv (run cs s)) = catalogue (inv s) /\
  List.length (inv (run cs s)) = List.length (inv s) /\
  (forall item, resolves item (inv (run cs s)) = resolves item (inv s)).
Proof.
  pose proof (catalogue_run cs s) as H. split; [exact H|]. split.
  - apply (f_equal (@List.length _)) in H. unfold catalogue in H.
    now rewrite !length_map in H.
  - intros item. unfold resolves, get_item. now apply first_match_catalogue.
Qed.

(** ** Names at the edges *)

Lemma contains_empty s : PyStr.contains EmptyString s = true.
Proof. now destruct s. Qed.

Lemma prefix_refl s : prefix s s = true.
Proof.
  induction s as [|c s IH]; simpl; [reflexivity|].
  destruct (ascii_dec c c); [exact IH | congruence].
Qed.

Lemma contains_refl s : PyStr.contains s s = true.
Proof. destruct s; cbn [PyStr.contains]; now rewrite prefix_refl. Qed.

Lemma first_match_some item_key items key info :
  In (key, info) items -> fuzzy_match item_key key = true ->
  first_match item_key items <> None.
Proof.
  unfold first_match.
  induction items as [|[k i] rest IH]; simpl; [contradiction|].
  intros [[= -> ->]|Hin] Hm.
  - rewrite Hm. discriminate.
  - destruct (fuzzy_match item_key k); [discriminate | auto].
Qed.

(** X7: a name that lowercases and strips to a key of the catalogue is
    always found, but not always as that entry: the lookup returns the first
    entry whose key matches, which is the named entry or one that precedes
    it and whose key occurs in the name (or the name in it). *)
Theorem catalogued_name_is_found item items key info :
  In (key, info) items ->
  PyStr.strip (PyStr.lower item) = key ->
  exists key' info' before after,
    get_item item items = Some (key', info') /\
    items = (before ++ (key', info') :: after)%list /\
    In (key, info) ((key', info') :: after) /\
    fuzzy_match key key' = true.
Proof.
  intros Hin Hkey.
  assert (Hself : fuzzy_match key key = true)
    by (unfold fuzzy_match; now rewrite contains_refl).
  destruct (get_item item items) as [[key' info']|] eqn:Hget.
  - unfold get_item in Hget. rewrite Hkey in Hget.
    destruct (first_match_split _ _ _ _ Hget)
      as (before & after & Hitems & Hm & Hbefore).
    exists key', info', before, after. repeat split; auto.
    rewrite Hitems in Hin. apply in_app_or in Hin as [Hin|Hin]; [|exact Hin].
    rewrite forallb_forall in Hbefore. specialize (Hbefore _ Hin).
    simpl in Hbefore. rewrite Hself in Hbefore. discriminate.
  - exfalso. unfold get_item in Hget. rewrite Hkey in Hget.
    exact (first_match_some _ _ _ _ Hin Hself Hget).
Qed.

Lemma catalogued_name_is_found_witness :
  exists key' info' before after,
    get_item " Coffee Machine" INVENTORY = Some (key', info') /\
    INVENTORY = (before ++ (key', info') :: after)%list /\
    In ("coffee machine", mk_info 3 79999) ((key', info') :: after) /\
    fuzzy_match "coffee machine" key' = true.
Proof.
  apply catalogued_name_is_found; [|reflexivity].
  simpl. do 6 right. left. reflexivity.
Defined.

(** *** Normalising twice *)

Lemma lstrip_starts_clean s : starts_clean (PyStr.lstrip s) = true.
Proof.
  induction s as [|c s IH]; simpl; [reflexivity|].
  destruct (PyStr.is_space c) eqn:Hc; [exact IH|]. simpl. now rewrite Hc.
Qed.

Lemma lstrip_clean s : starts_clean s = true -> PyStr.lstrip s = s.
Proof.
  destruct s as [|c s]; simpl; [reflexivity|].
  now destruct (PyStr.is_space c).
Qed.

Lemma rstrip_starts_clean s :
  starts_clean s = true -> starts_clean (PyStr.rstrip s) = true.
Proof.
  destruct s as [|c s]; simpl; [reflexivity|].
  destruct (PyStr.is_space c) eqn:Hc; [discriminate|].
  intros _. simpl. now rewrite Hc.
Qed.

Lemma rstrip_idem s : PyStr.rstrip (PyStr.rstrip s) = PyStr.rstrip s.
Proof.
  induction s as [|c s IH]; simpl; [reflexivity|].
  destruct (PyStr.is_space c && PyStr.is_empty (PyStr.rstrip s))%bool eqn:H;
    [reflexivity|].
  simpl. now rewrite IH, H.
Qed.

Lemma strip_idem s : PyStr.strip (PyStr.strip s) = PyStr.strip s.
Proof.
  unfold PyStr.strip.
  rewrite (lstrip_clean (PyStr.rstrip (PyStr.lstrip s)))
    by apply rstrip_starts_clean, lstrip_starts_clean.
  apply rstrip_idem.
Qed.

Lemma item_key_idem item :
  PyStr.strip (PyStr.lower (PyStr.strip (PyStr.lower item)))
  = PyStr.strip (PyStr.lower item).
Proof. now rewrite lower_item_key, strip_idem. Qed.

(** X8: the key a tool searches for is a fixed point of the normalisation:
    lowercasing and stripping it again changes nothing.  Passing the
    normalised name instead of the name therefore changes no lookup, no
    decision and no ledger. *)
Theorem normalised_name_is_equivalent (item : string) (s : ledger) :
  let key := PyStr.strip (PyStr.lower item) in
  PyStr.strip (PyStr.lower key) = key /\
  get_item key (inv s) = get_item item (inv s) /\
  (forall q,
     snd (purchase_basic_item key q s) = snd (purchase_basic_item item q s) /\
     decision (fst (purchase_basic_item key q s))
     = decision (fst (purchase_basic_item item q s))) /\
  (forall j,
     snd (purchase_expensive_item key j s)
     = snd (purchase_expensive_item item j s) /\
     decision (fst (purchase_expensive_item key j s))
     = decision (fst (purchase_expensive_item item j s))).
Proof.
  intros key. subst key. split; [apply item_key_idem|].
  split; [unfold get_item; now rewrite item_key_idem|].
  split; intros x.
  - unfold purchase_basic_item. rewrite item_key_idem.
    rewrite !for_items_first_match.
    destruct (first_match _ _) as [[k i]|]; [|auto].
    destruct (remaining (bud s) >=? x * price i); auto.
  - unfold purchase_expensive_item. rewrite item_key_idem.
    rewrite !for_items_first_match.
    destruct (first_match _ _) as [[k i]|]; [|auto].
    destruct (price i <=? 20000); [auto|].
    destruct (remaining (bud s) >=? price i); auto.
Qed.

(** ** Tools used one after the other *)

(** X10: purchase_basic_item has no price ceiling.  Whenever
    purchase_expensive_item would commit for a name, purchase_basic_item
    with quantity 1 commits for it too and leaves exactly the same ledger:
    the $200 line is enforced on the expensive tool only. *)
Theorem basic_tool_buys_expensive_items item j s :
  decision (fst (purchase_expensive_item item j s)) = Committed ->
  decision (fst (purchase_basic_item item 1 s)) = Committed /\
  snd (purchase_basic_item item 1 s) = snd (purchase_expensive_item item j s).
Proof.
  destruct (get_item item (inv s)) as [[k i]|] eqn:Hg.
  - destruct (Z_le_gt_dec (price i) 20000) as [Hp|Hp].
    { rewrite (purchase_expensive_item_redirects _ _ _ _ _ Hg Hp).
      discriminate. }
    destruct (Z_le_gt_dec (price i) (remaining (bud s))) as [Hf|Hf].
    + intros _.
      rewrite (purchase_expensive_item_commits _ _ _ _ _ Hg) by lia.
      rewrite (purchase_basic_item_commits _ _ _ _ _ Hg) by lia.
      cbn [fst snd decision]. now rewrite Z.mul_1_l.
    + rewrite (purchase_expensive_item_short _ _ _ _ _ Hg) by lia.
      discriminate.
  - rewrite (purchase_expensive_item_not_found _ _ _ Hg). discriminate.
Qed.

Lemma basic_tool_buys_expensive_items_witness :
  decision (fst (purchase_basic_item "executive desk" 1 seeded)) = Committed /\
  snd (purchase_basic_item "executive desk" 1 seeded)
  = snd (purchase_expensive_item "executive desk" "corner office" seeded).
Proof. apply basic_tool_buys_expensive_items. reflexivity. Defined.

Lemma sub_stock_zero key items : sub_stock key 0 items = items.
Proof.
  induction items as [|[k [st p]] rest IH]; simpl; [reflexivity|].
  destruct (String.eqb k key); [now rewrite Z.sub_0_r | now rewrite IH].
Qed.

(** X11: a quantity of zero is not rejected either.  For a name that is
    found, purchase_basic_item with quantity 0 never changes the ledger; it
    returns a success message for 0 units at cost 0 when the remaining
    budget is not negative, and an insufficient-budget message (need 0)
    when it is. *)
Theorem zero_quantity_is_a_silent_purchase item s key info :
  get_item item (inv s) = Some (key, info) ->
  snd (purchase_basic_item item 0 s) = s /\
  (0 <= remaining (bud s) ->
   fst (purchase_basic_item item 0 s)
   = Purchased 0 item 0 (remaining (bud s))) /\
  (remaining (bud s) < 0 ->
   fst (purchase_basic_item item 0 s)
   = InsufficientBudget 0 (remaining (bud s))).
Proof.
  intros Hg. repeat split.
  - destruct (Z_le_gt_dec 0 (remaining (bud s))) as [Hr|Hr].
    + rewrite (purchase_basic_item_commits _ _ _ _ _ Hg) by lia.
      cbn [snd]. rewrite sub_stock_zero. unfold debit.
      rewrite Z.mul_0_l, Z.sub_0_r. now destruct s as [items [r l]].
    + now rewrite (purchase_basic_item_short _ _ _ _ _ Hg) by lia.
  - intros Hr. rewrite (purchase_basic_item_commits _ _ _ _ _ Hg) by lia.
    cbn [fst]. now rewrite Z.mul_0_l, Z.sub_0_r.
  - intros Hr. rewrite (purchase_basic_item_short _ _ _ _ _ Hg) by lia.
    cbn [fst]. now rewrite Z.mul_0_l.
Qed.

Lemma zero_quantity_is_a_silent_purchase_witness :
  snd (purchase_basic_item "pens" 0 seeded) = seeded /\
  fst (purchase_basic_item "pens" 0 seeded) = Purchased 0 "pens" 0 500000.
Proof.
  destruct (zero_quantity_is_a_silent_purchase "pens" seeded "pens"
              (mk_info 200 850) eq_refl) as (H1 & H2 & _).
  split; [exact H1 | apply H2; simpl; lia].
Defined.

(** ** The writes to the stock *)

(** X13: a call writes at most one stock.  purchase_basic_item and
    purchase_expensive_item leave every entry alone except the one the name
    resolves to; every other tool leaves the whole inventory as it is. *)
Theorem at_most_one_stock_is_written (c : call) (s : ledger) :
  (writes_stock c = false -> inv (step s c) = inv s) /\
  (forall item q key',
     c = PurchaseBasicItem item q ->
     option_map fst (get_item item (inv s)) <> Some key' ->
     lookup key' (inv (step s c)) = lookup key' (inv s)) /\
  (forall item j key',
     c = PurchaseExpensiveItem item j ->
     option_map fst (get_item item (inv s)) <> Some key' ->
     lookup key' (inv (step s c)) = lookup key' (inv s)).
Proof.
  split; [|split].
  - intros Hw. destruct (step_cases c s) as [H|H]; [|now rewrite H].
    inversion H; subst; simpl in *; congruence.
  - intros item q key' -> Hne.
    destruct (step_cases (PurchaseBasicItem item q) s) as [H|H];
      [|now rewrite H].
    inversion H as [? ? k i Hg Hf| | |]; subst. cbn [inv].
    apply lookup_sub_stock_other. rewrite Hg in Hne. simpl in Hne. congruence.
  - intros item j key' -> Hne.
    destruct (step_cases (PurchaseExpensiveItem item j) s) as [H|H];
      [|now rewrite H].
    inversion H as [|? ? k i Hg Hp Hf| |]; subst. cbn [inv].
    apply lookup_sub_stock_other. rewrite Hg in Hne. simpl in Hne. congruence.
Qed.

Lemma at_most_one_stock_is_written_witness :
  lookup "pens" (inv (step seeded (PurchaseBasicItem "coffee machine" 2)))
  = lookup "pens" INVENTORY.
Proof.
  destruct (at_most_one_stock_is_written
              (PurchaseBasicItem "coffee machine" 2) seeded) as (_ & H & _).
  apply (H "coffee machine" 2 "pens"); [reflexivity|].
  vm_compute. discriminate.
Defined.

(** * The lookup against the specification *)

(** ** Letters and blanks *)










(** ** Stripping *)





(** ** Substrings *)









(** * Binary64 *)

(** ** Rounding keeps the sign *)

Lemma iter_pos_invariant {A : Type} (P : A -> Prop) (f : A -> A) :
  (forall x, P x -> P (f x)) ->
  forall n x, P x -> P (iter_pos f n x).
Proof.
  intros Hf. induction n as [n IH|n IH|]; intros x Hx; simpl; auto.
Qed.

Lemma shr_1_nonneg mrs : 0 <= shr_m mrs -> 0 <= shr_m (shr_1 mrs).
Proof.
  destruct mrs as [[|[p|p|]|p] r s]; simpl; intros H; lia.
Qed.

Lemma shr_fexp_nonneg p e m ex lx :
  0 <= m -> 0 <= shr_m (fst (shr_fexp p e m ex lx)).
Proof.
  intros Hm. unfold shr_fexp, shr.
  assert (H0 : 0 <= shr_m (shr_record_of_loc m lx))
    by (destruct lx as [|[]]; exact Hm).
  destruct (fexp p e (Zdigits2 m + ex) - ex) as [|n|n]; simpl; auto.
  apply iter_pos_invariant; auto using shr_1_nonneg.
Qed.

Lemma round_nearest_even_nonneg m l : 0 <= m -> 0 <= round_nearest_even m l.
Proof.
  intros Hm. destruct l as [|[]]; simpl; try lia.
  destruct (Z.even m); lia.
Qed.

Lemma binary_round_aux_signed p e s m ex lx :
  0 <= m -> SFsigned s (binary_round_aux p e s m ex lx) = true.
Proof.
  intros Hm. unfold binary_round_aux.
  pose proof (shr_fexp_nonneg p e m ex lx Hm) as H1.
  destruct (shr_fexp p e m ex lx) as [mrs' e']. simpl in H1.
  pose proof (shr_fexp_nonneg p e _ e' loc_Exact
                (round_nearest_even_nonneg _ (loc_of_shr_record mrs') H1))
    as H2.
  destruct (shr_fexp p e _ e' loc_Exact) as [mrs'' e'']. simpl in H2.
  destruct (shr_m mrs'') as [|q|q]; simpl.
  - apply eqb_reflx.
  - destruct (e'' <=? e - p); simpl; apply eqb_reflx.
  - lia.
Qed.

Lemma binary_round_signed p e s m ex :
  SFsigned s (binary_round p e s m ex) = true.
Proof.
  unfold binary_round.
  destruct (shl_align m ex _) as [mz ez].
  apply binary_round_aux_signed. lia.
Qed.

Lemma binary_normalize_nonneg p e m ex :
  0 <= m -> SFnonneg (binary_normalize p e m ex false) = true.
Proof.
  destruct m as [|q|q]; simpl; intros H; [reflexivity| |lia].
  pose proof (binary_round_signed p e false q ex) as Hs.
  now destruct (binary_round p e false q ex) as [[]|[]| |[] ? ?].
Qed.

Lemma SFsigned_nonneg x : SFsigned false x = true -> SFnonneg x = true.
Proof. now destruct x as [[]|[]| |[] ? ?]. Qed.

Lemma SFsigned_nonpos x : SFsigned true x = true -> SFnonpos x = true.
Proof. now destruct x as [[]|[]| |[] ? ?]. Qed.

(** ** Mantissas *)

Lemma digits2_pos_bounds m :
  2 ^ (Z.pos (digits2_pos m) - 1) <= Z.pos m < 2 ^ Z.pos (digits2_pos m).
Proof.
  induction m as [m [IH1 IH2]|m [IH1 IH2]|]; cbn [digits2_pos];
    [rewrite Pos2Z.inj_succ; change (Z.pos m~1) with (2 * Z.pos m + 1)
    |rewrite Pos2Z.inj_succ; change (Z.pos m~0) with (2 * Z.pos m)
    |simpl; lia];
    replace (Z.succ (Z.pos (digits2_pos m)) - 1)
      with (Z.succ (Z.pos (digits2_pos m) - 1)) by lia;
    rewrite !Z.pow_succ_r by lia;
    revert IH1 IH2;
    generalize (2 ^ (Z.pos (digits2_pos m) - 1)) (2 ^ Z.pos (digits2_pos m));
    intros; lia.
Qed.

Lemma shl_align_same m e : shl_align m e e = (m, e).
Proof. unfold shl_align. now rewrite Z.sub_diag. Qed.

Lemma shl_align_lower m e e' :
  e' < e -> 2 * Z.pos m <= Z.pos (fst (shl_align m e e')).
Proof.
  intros H. unfold shl_align.
  destruct (e' - e) as [|d|d] eqn:Hd; try lia. simpl.
  change (Pos.iter xO m d) with (shift_pos d m).
  rewrite shift_pos_correct, Z.pow_pos_fold.
  assert (2 ^ 1 <= 2 ^ Z.pos d) by (apply Z.pow_le_mono_r; lia).
  change (2 ^ 1) with 2 in *. nia.
Qed.

(** In a well-formed binary64 number with the larger exponent the mantissa
    is full, so it outweighs any mantissa at a smaller exponent. *)
Lemma larger_exponent_outweighs mx ex my ey :
  bounded prec emax mx ex = true -> bounded prec emax my ey = true ->
  ey < ex ->
  Z.pos my <= Z.pos (fst (shl_align mx ex ey)).
Proof.
  unfold bounded, canonical_mantissa, fexp, SpecFloat.emin.
  intros Hx Hy Hlt.
  apply andb_prop in Hx as [Hx _]. apply andb_prop in Hy as [Hy _].
  apply Z.eqb_eq in Hx, Hy.
  change (3 - emax - prec) with (-1074) in *. change prec with 53 in *.
  pose proof (digits2_pos_bounds mx) as [Hx1 _].
  pose proof (digits2_pos_bounds my) as [_ Hy2].
  pose proof (shl_align_lower mx ex ey Hlt) as Hs.
  assert (Hdx : Z.pos (digits2_pos mx) = 53) by lia.
  assert (Hdy : Z.pos (digits2_pos my) <= 53) by lia.
  rewrite Hdx in Hx1. change (2 ^ (53 - 1)) with 4503599627370496 in Hx1.
  assert (2 ^ Z.pos (digits2_pos my) <= 2 ^ 53)
    by (apply Z.pow_le_mono_r; lia).
  change (2 ^ 53) with 9007199254740992 in *. lia.
Qed.

(** ** Subtraction and addition that stay at or above zero *)

Lemma SFsub_nonneg x y :
  valid_binary x = true -> valid_binary y = true ->
  SFnonneg x = true -> SFleb y x = true -> y <> S754_infinity false ->
  SFnonneg (SF64sub x y) = true.
Proof.
  intros Hvx Hvy Hx Hle Hinf.
  destruct x as [sx|[]| |[] mx ex]; try discriminate;
    destruct y as [sy|[]| |[] my ey]; try discriminate;
    try reflexivity; try congruence.
  - now destruct sx, sy.
  - (* a positive number minus a negative one *)
    unfold SF64sub, SFsub. cbn [cond_Zopp].
    apply binary_normalize_nonneg. lia.
  - (* two positive numbers *)
    unfold SF64sub, SFsub. cbn [cond_Zopp].
    apply binary_normalize_nonneg.
    unfold SFleb, SFcompare in Hle. simpl in Hvx, Hvy.
    destruct (Z.compare_spec ey ex) as [Heq|Hlt|Hgt]; try discriminate.
    + subst ey. rewrite Z.min_id, !shl_align_same. cbn [fst].
      change (Pos.compare_cont Eq my mx) with (my ?= mx)%positive in Hle.
      destruct (Pos.compare_spec my mx); try discriminate; lia.
    + rewrite Z.min_r by lia. rewrite (shl_align_same my ey). cbn [fst].
      pose proof (larger_exponent_outweighs mx ex my ey Hvx Hvy Hlt). lia.
Qed.

Lemma SFadd_nonneg x y :
  SFnonneg x = true -> SFnonneg y = true ->
  SFnonneg (SF64add x y) = true.
Proof.
  intros Hx Hy.
  destruct x as [sx|[]| |[] mx ex]; try discriminate;
    destruct y as [sy|[]| |[] my ey]; try discriminate;
    try reflexivity.
  - now destruct sx, sy.
  - unfold SF64add, SFadd. cbn [cond_Zopp].
    apply binary_normalize_nonneg. lia.
Qed.

(** ** The same readings on the numbers of the program *)

Lemma nonneg_spec x : (0 <=? x)%float = true <-> SFnonneg (Prim2SF x) = true.
Proof.
  rewrite FloatAxioms.leb_spec. change (Prim2SF 0) with (S754_zero false).
  destruct (Prim2SF x) as [[]|[]| |[] ? ?]; cbv; split; congruence.
Qed.

Lemma not_plus_infinity_spec x :
  (x =? infinity)%float = false <-> Prim2SF x <> S754_infinity false.
Proof.
  rewrite FloatAxioms.eqb_spec. change (Prim2SF infinity) with (S754_infinity false).
  destruct (Prim2SF x) as [[]|[]| |[] ? ?]; cbv; split; congruence.
Qed.

Lemma sub_nonneg r c :
  (0 <=? r)%float = true -> (c <=? r)%float = true ->
  (c =? infinity)%float = false ->
  (0 <=? r - c)%float = true.
Proof.
  rewrite !nonneg_spec, FloatAxioms.leb_spec, not_plus_infinity_spec, FloatAxioms.sub_spec.
  intros Hr Hle Hc. apply SFsub_nonneg; auto using Prim2SF_valid.
Qed.

Lemma add_nonneg r a :
  (0 <=? r)%float = true -> (0 <=? a)%float = true ->
  (0 <=? r + a)%float = true.
Proof.
  rewrite !nonneg_spec, FloatAxioms.add_spec. apply SFadd_nonneg.
Qed.

Lemma binary_normalize_signed p e m ex :
  0 <= m -> SFsigned false (binary_normalize p e m ex false) = true.
Proof.
  destruct m as [|q|q]; simpl; intros H; [reflexivity| |lia].
  apply binary_round_signed.
Qed.

Lemma SFldexp_signed s x e :
  SFsigned s x = true -> SFsigned s (SFldexp prec emax x e) = true.
Proof.
  destruct x as [?|?| |sx mx ex]; simpl; auto.
  intros H. apply eqb_prop in H. subst sx. apply binary_round_signed.
Qed.

Lemma SFopp_signed x :
  SFsigned false x = true -> SFsigned true (SFopp x) = true.
Proof. now destruct x as [[]|[]| |[] ? ?]. Qed.

Lemma not_infinite_spec f :
  is_infinity f = false -> forall s, Prim2SF f <> S754_infinity s.
Proof.
  unfold is_infinity. rewrite FloatAxioms.eqb_spec, FloatAxioms.abs_spec.
  change (Prim2SF infinity) with (S754_infinity false).
  intros H s Hf. rewrite Hf in H. discriminate.
Qed.

(** [float(n)] of a negative integer is a negative number or minus zero,
    never an infinity and never NaN. *)
Lemma of_int_negative n f :
  n < 0 -> B64.of_int n = Some f ->
  SFsigned true (Prim2SF f) = true /\
  (forall s, Prim2SF f <> S754_infinity s).
Proof.
  intros Hn. unfold B64.of_int.
  destruct n as [|q|q]; try lia. cbn [binary_normalize].
  pose proof (binary_round_signed prec emax true q 0) as Hs.
  destruct (binary_round prec emax true q 0) as [[]|[]| |[] m e];
    try discriminate; cbn [SF2Prim].
  - intros [= <-]. split; [reflexivity | intros s; discriminate].
  - destruct (is_infinity _) eqn:Hinf; [discriminate|].
    intros [= <-]. split; [|now apply not_infinite_spec].
    rewrite FloatAxioms.opp_spec. apply SFopp_signed.
    rewrite Z_ldexp_spec. apply SFldexp_signed.
    rewrite FloatAxioms.of_uint63_spec. apply binary_normalize_signed.
    apply to_Z_bounded.
Qed.

Lemma SFmul_nonpos x y :
  SFsigned true x = true -> (forall s, x <> S754_infinity s) ->
  SFnonneg y = true -> y <> S754_infinity false ->
  SFnonpos (SF64mul x y) = true.
Proof.
  intros Hx Hxi Hy Hyi.
  destruct x as [[]|[]| |[] mx ex]; try discriminate;
    try (now exfalso; eapply Hxi);
    destruct y as [sy|[]| |[] my ey]; try discriminate; try congruence;
    try reflexivity.
  unfold SF64mul, SFmul. cbn [xorb].
  apply SFsigned_nonpos, binary_round_aux_signed. lia.
Qed.

Lemma SFleb_nonpos_nonneg x y :
  SFnonpos x = true -> SFnonneg y = true -> SFleb x y = true.
Proof.
  destruct x as [[]|[]| |[] ? ?]; try discriminate;
    destruct y as [[]|[]| |[] ? ?]; try discriminate; reflexivity.
Qed.

Lemma negative_spec x : (x <? 0)%float = true -> SFnonpos (Prim2SF x) = true.
Proof.
  rewrite FloatAxioms.ltb_spec. change (Prim2SF 0) with (S754_zero false).
  now destruct (Prim2SF x) as [[]|[]| |[] ? ?].
Qed.

(** A cost that is the product of a negative quantity and a price at or
    above zero, or a negative price, is covered by any budget at or above
    zero. *)
Lemma refund_is_covered n q p r :
  n < 0 -> B64.of_int n = Some q ->
  (0 <=? p)%float = true -> (p =? infinity)%float = false ->
  (0 <=? r)%float = true ->
  (q * p <=? r)%float = true /\ (q * p <=? 0)%float = true.
Proof.
  intros Hn Hq Hp Hpi Hr.
  destruct (of_int_negative _ _ Hn Hq) as [Hs Hi].
  apply nonneg_spec in Hp, Hr. apply not_plus_infinity_spec in Hpi.
  pose proof (SFmul_nonpos _ _ Hs Hi Hp Hpi) as Hm.
  rewrite !FloatAxioms.leb_spec, FloatAxioms.mul_spec.
  split; apply SFleb_nonpos_nonneg; auto.
Qed.

Lemma negative_price_is_covered p r :
  (p <? 0)%float = true -> (0 <=? r)%float = true ->
  (p <=? r)%float = true.
Proof.
  intros Hp Hr. apply negative_spec in Hp. apply nonneg_spec in Hr.
  rewrite FloatAxioms.leb_spec. now apply SFleb_nonpos_nonneg.
Qed.

(** * The tools over binary64: proofs *)

(** ** The loop, the lookup and the stock *)

Lemma b64_for_items_get_item {A : Type} items item
  (body : string -> B64.item_info -> A) fallthrough :
  B64.for_items items (PyStr.strip (PyStr.lower item)) body fallthrough =
  match B64.get_item item items with
  | Some (key, info) => body key info
  | None => fallthrough
  end.
Proof.
  unfold B64.get_item.
  induction items as [|[k i] rest IH]; simpl; [reflexivity|].
  destruct (fuzzy_match _ k); [reflexivity | exact IH].
Qed.

Lemma b64_get_item_matches item items key info :
  B64.get_item item items = Some (key, info) ->
  fuzzy_match (PyStr.strip (PyStr.lower item)) key = true.
Proof.
  unfold B64.get_item.
  induction items as [|[k i] rest IH]; simpl; [discriminate|].
  destruct (fuzzy_match _ k) eqn:Hm; [|exact IH].
  now intros [= <- <-].
Qed.

Lemma b64_get_item_lookup item items key info :
  B64.get_item item items = Some (key, info) ->
  B64.lookup key items = Some info.
Proof.
  intros H. pose proof (b64_get_item_matches _ _ _ _ H) as Hk. revert H.
  unfold B64.get_item.
  induction items as [|[k i] rest IH]; simpl; [discriminate|].
  destruct (fuzzy_match _ k) eqn:Hm.
  - intros [= <- <-]. now rewrite String.eqb_refl.
  - intros H. destruct (String.eqb_spec k key) as [->|_]; [congruence|auto].
Qed.

Lemma b64_get_item_sub_stock item items key info n :
  B64.get_item item items = Some (key, info) ->
  B64.get_item item (B64.sub_stock key n items) =
  Some (key, B64.mk_info (B64.stock info - n) (B64.price info)).
Proof.
  intros H. pose proof (b64_get_item_matches _ _ _ _ H) as Hk. revert H.
  unfold B64.get_item.
  induction items as [|[k i] rest IH]; simpl; [discriminate|].
  destruct (fuzzy_match _ k) eqn:Hm.
  - intros [= <- <-]. rewrite String.eqb_refl. simpl. now rewrite Hm.
  - intros H. destruct (String.eqb_spec k key) as [->|_]; [congruence|].
    simpl. rewrite Hm. auto.
Qed.

Lemma b64_lookup_sub_stock_same key n items info :
  B64.lookup key items = Some info ->
  B64.lookup key (B64.sub_stock key n items) =
  Some (B64.mk_info (B64.stock info - n) (B64.price info)).
Proof.
  induction items as [|[k i] rest IH]; simpl; [discriminate|].
  destruct (String.eqb_spec k key) as [->|Hne]; simpl.
  - intros [= ->]. now rewrite String.eqb_refl.
  - intros H. destruct (String.eqb_spec k key); [contradiction|auto].
Qed.

Lemma b64_stocks_nonneg_sub_stock key n items info :
  B64.stocks_nonneg items ->
  B64.lookup key items = Some info -> n <= B64.stock info ->
  B64.stocks_nonneg (B64.sub_stock key n items).
Proof.
  induction 1 as [|[k i] rest Hs Hrest IH]; simpl; [constructor|].
  destruct (String.eqb k key).
  - intros [= ->] Hn. constructor; [simpl; lia | exact Hrest].
  - intros Hl Hn. constructor; [exact Hs | now apply IH].
Qed.

Lemma b64_prices_sub_stock key n items :
  B64.prices_below_infinity items ->
  B64.prices_below_infinity (B64.sub_stock key n items).
Proof.
  induction 1 as [|[k i] rest Hp Hrest IH]; simpl; [constructor|].
  destruct (String.eqb k key); constructor; auto.
Qed.

Lemma b64_prices_lookup key items info :
  B64.prices_below_infinity items -> B64.lookup key items = Some info ->
  (B64.price info =? infinity)%float = false.
Proof.
  induction 1 as [|[k i] rest Hp _ IH]; simpl; [discriminate|].
  destruct (String.eqb k key); [intros [= <-]; exact Hp | exact IH].
Qed.

(** Every branch of a call. *)
Ltac b64_cases :=
  unfold B64.step, B64.exec, B64.check_inventory, B64.purchase_basic_item,
    B64.purchase_expensive_item, B64.purchase_luxury_item,
    B64.emergency_budget_increase;
  rewrite ?b64_for_items_get_item;
  repeat match goal with
    | |- context [match B64.get_item ?i ?l with _ => _ end] =>
        let H := fresh "Hfound" in
        destruct (B64.get_item i l) as [[? ?]|] eqn:H
    | |- context [match B64.of_int ?n with _ => _ end] =>
        let H := fresh "Hfloat" in destruct (B64.of_int n) eqn:H
    | |- context [if ?b then _ else _] =>
        let H := fresh "Htest" in destruct b eqn:H
    end;
  cbn [fst snd B64.inv B64.bud B64.debit B64.remaining B64.monthly_limit
       B64.decision].

(** ** Budget and stock stay at or above zero *)

Lemma b64_budget_step s c :
  B64.prices_below_infinity (B64.inv s) -> B64.budget_nonneg s ->
  B64.keeps_budget s c = true ->
  B64.prices_below_infinity (B64.inv (B64.step s c)) /\
  B64.budget_nonneg (B64.step s c).
Proof.
  unfold B64.budget_nonneg. intros Hp Hr Hg.
  destruct c as [item|item q|item j|item p vendor j|amount reason];
    cbn [B64.keeps_budget] in Hg; revert Hg; b64_cases; intros Hg;
    auto using b64_prices_sub_stock.
  - split; [now apply b64_prices_sub_stock|].
    apply negb_true_iff in Hg. now apply sub_nonneg.
  - split; [now apply b64_prices_sub_stock|].
    apply sub_nonneg; auto.
    eapply b64_prices_lookup; eauto using b64_get_item_lookup.
  - split; [exact Hp|]. apply negb_true_iff in Hg. now apply sub_nonneg.
  - split; [exact Hp|]. now apply add_nonneg.
Qed.

Lemma b64_budget_run cs : forall s n,
  B64.prices_below_infinity (B64.inv s) -> B64.budget_nonneg s ->
  B64.along B64.keeps_budget cs s = true ->
  B64.budget_nonneg (B64.run (firstn n cs) s).
Proof.
  induction cs as [|c cs IH]; intros s [|n] Hp Hr Hg; simpl; auto.
  simpl in Hg. apply andb_prop in Hg as [Hc Hcs].
  destruct (b64_budget_step s c Hp Hr Hc) as [Hp' Hr']. now apply IH.
Qed.

Lemma b64_stock_step s c :
  B64.stocks_nonneg (B64.inv s) -> B64.within_stock s c = true ->
  B64.stocks_nonneg (B64.inv (B64.step s c)).
Proof.
  intros Hs Hg.
  destruct c as [item|item q|item j|item p vendor j|amount reason];
    cbn [B64.within_stock] in Hg; revert Hg; b64_cases; intros Hg; auto;
    apply Z.leb_le in Hg;
    eapply b64_stocks_nonneg_sub_stock; eauto using b64_get_item_lookup.
Qed.

Lemma b64_stock_run cs : forall s n,
  B64.stocks_nonneg (B64.inv s) ->
  B64.along B64.within_stock cs s = true ->
  B64.stocks_nonneg (B64.inv (B64.run (firstn n cs) s)).
Proof.
  induction cs as [|c cs IH]; intros s [|n] Hs Hg; simpl; auto.
  simpl in Hg. apply andb_prop in Hg as [Hc Hcs].
  apply IH; auto using b64_stock_step.
Qed.

(** C1, as amended: from the seeded state, with the amounts as the binary64
    numbers Python computes.  After every call of a sequence of calls in
    which every emergency amount is at least 0 and no purchase cost is plus
    infinity (no luxury price of plus infinity, no product quantity * price
    that overflows to it), the remaining budget is at or above 0.  After
    every call of a sequence in which each purchase asks for no more units
    than the item it resolves to has in stock, every stock is at least 0.
    Each of the two holds on its own condition. *)
Theorem budget_and_stock_stay_at_or_above_zero
  (cs : list B64.call) (n : nat) :
  (B64.along B64.keeps_budget cs B64.seeded = true ->
   B64.budget_nonneg (B64.run (firstn n cs) B64.seeded)) /\
  (B64.along B64.within_stock cs B64.seeded = true ->
   B64.stocks_nonneg (B64.inv (B64.run (firstn n cs) B64.seeded))).
Proof.
  split; intros H.
  - apply b64_budget_run; auto.
    + repeat constructor.
    + reflexivity.
  - apply b64_stock_run; auto.
    repeat constructor; simpl; lia.
Qed.

Lemma budget_and_stock_stay_at_or_above_zero_witness :
  let cs := [ B64.PurchaseBasicItem "paper clips" 50;
              B64.PurchaseExpensiveItem "executive desk" "corner office";
              B64.EmergencyBudgetIncrease 1000%float "quarter end";
              B64.PurchaseLuxuryItem "throne" 3000%float "Acme" "morale";
              B64.PurchaseBasicItem "pens" 3 ] in
  B64.budget_nonneg (B64.run (firstn 4 cs) B64.seeded) /\
  B64.stocks_nonneg (B64.inv (B64.run (firstn 4 cs) B64.seeded)).
Proof.
  intros cs.
  destruct (budget_and_stock_stay_at_or_above_zero cs 4) as [Hb Hs].
  split; [apply Hb | apply Hs]; vm_compute; reflexivity.
Defined.

(** ** The funds check *)



(** ** Negative quantities and prices *)

(** C4, as amended, with the amounts as binary64 numbers: a negative
    quantity or price is not rejected; it goes through the same lookup,
    conversion and funds check as any other value.  When the remaining
    budget is at or above 0 and the price of the item found is at or above
    0 and finite, purchase_basic_item with a negative quantity that converts
    passes the funds check and commits: the cost quantity * price is at
    most 0, it is subtracted from the remaining budget, and the stock of the
    item rises by |quantity|.  A negative quantity too large to convert
    raises OverflowError and one whose item is not found returns not-found,
    both with the ledger unchanged.  purchase_luxury_item with a negative
    price commits when the remaining budget is at or above 0: the price is
    subtracted from the budget and the inventory is left as it was. *)
Theorem negative_arguments_are_processed (s : B64.ledger) :
  (forall item n key info q,
     n < 0 -> B64.get_item item (B64.inv s) = Some (key, info) ->
     B64.of_int n = Some q ->
     (0 <=? B64.remaining (B64.bud s))%float = true ->
     (0 <=? B64.price info)%float = true ->
     (B64.price info =? infinity)%float = false ->
     let cost := (q * B64.price info)%float in
     let r := B64.purchase_basic_item item n s in
     B64.decision (fst r) = Committed /\
     (cost <=? 0)%float = true /\
     B64.remaining (B64.bud (snd r))
     = (B64.remaining (B64.bud s) - cost)%float /\
     B64.monthly_limit (B64.bud (snd r)) = B64.monthly_limit (B64.bud s) /\
     B64.lookup key (B64.inv (snd r))
     = Some (B64.mk_info (B64.stock info + Z.abs n) (B64.price info)))
  /\
  (forall item n key info,
     n < 0 -> B64.get_item item (B64.inv s) = Some (key, info) ->
     B64.of_int n = None ->
     B64.purchase_basic_item item n s = (B64.OverflowError, s))
  /\
  (forall item n,
     n < 0 -> B64.get_item item (B64.inv s) = None ->
     B64.purchase_basic_item item n s = (B64.NotFound item, s))
  /\
  (forall item p vendor j,
     (p <? 0)%float = true ->
     (0 <=? B64.remaining (B64.bud s))%float = true ->
     let r := B64.purchase_luxury_item item p vendor j s in
     B64.decision (fst r) = Committed /\
     B64.remaining (B64.bud (snd r)) = (B64.remaining (B64.bud s) - p)%float /\
     B64.monthly_limit (B64.bud (snd r)) = B64.monthly_limit (B64.bud s) /\
     B64.inv (snd r) = B64.inv s).
Proof.
  split; [|split; [|split]].
  - intros item n key info q Hn Hg Hq Hr Hp Hpi cost r. subst cost r.
    destruct (refund_is_covered _ _ _ _ Hn Hq Hp Hpi Hr) as [Hf H0].
    unfold B64.purchase_basic_item.
    rewrite b64_for_items_get_item, Hg, Hq, Hf.
    cbn [fst snd B64.inv B64.bud B64.debit B64.remaining B64.monthly_limit
         B64.decision].
    repeat split; [exact H0|].
    rewrite (b64_lookup_sub_stock_same _ n _ _
               (b64_get_item_lookup _ _ _ _ Hg)).
    do 2 f_equal. lia.
  - intros item n key info _ Hg Hq. unfold B64.purchase_basic_item.
    now rewrite b64_for_items_get_item, Hg, Hq.
  - intros item n _ Hg. unfold B64.purchase_basic_item.
    now rewrite b64_for_items_get_item, Hg.
  - intros item p vendor j Hp Hr r. subst r.
    unfold B64.purchase_luxury_item.
    rewrite (negative_price_is_covered _ _ Hp Hr).
    cbn [fst snd B64.inv B64.bud B64.debit B64.remaining B64.monthly_limit
         B64.decision].
    repeat split.
Qed.

Lemma negative_arguments_are_processed_witness :
  B64.decision (fst (B64.purchase_basic_item "pens" (-3) B64.seeded))
  = Committed /\
  (-3 * 8.50 <=? 0)%float = true /\
  B64.remaining (B64.bud (snd (B64.purchase_basic_item "pens" (-3) B64.seeded)))
  = (5000 - -3 * 8.50)%float /\
  B64.monthly_limit
    (B64.bud (snd (B64.purchase_basic_item "pens" (-3) B64.seeded)))
  = 5000%float /\
  B64.lookup "pens"
    (B64.inv (snd (B64.purchase_basic_item "pens" (-3) B64.seeded)))
  = Some (B64.mk_info (200 + Z.abs (-3)) 8.50%float).
Proof.
  destruct (negative_arguments_are_processed B64.seeded) as [Hbasic _].
  apply (Hbasic "pens" (-3) "pens" (B64.mk_info 200 8.50%float) (-3)%float);
    [lia | reflexivity | reflexivity | reflexivity | reflexivity
    | reflexivity].
Defined.

(** * Set-up and menu *)

(** X14: the environment check of the main block and the one in
    create_agent agree.  When main finds a variable missing (unset or
    empty), create_agent raises its ValueError for the first name of main's
    list, before any constructor of the external packages is called.  When
    main finds none missing, and so whenever it goes on to the menu, what
    create_agent returns or raises is what those constructors return or
    raise. *)
Theorem environment_checks_agree {A : Type}
  (build : agent_request -> string + A) (env : environ) :
  (forall name rest,
     missing_vars env = name :: rest ->
     create_agent build env
     = inl (name ++ " environment variable is required!")) /\
  (missing_vars env = [] -> create_agent build env = build (request env)) /\
  (forall inputs events,
     main build env inputs = inr events ->
     create_agent build env = build (request env) /\
     events = menu (build (request env)) inputs).
Proof.
  unfold main, missing_vars, create_agent.
  destruct (unset env "BASETEN_API_KEY"), (unset env "HUMANLAYER_API_KEY");
    simpl; repeat split; intros;
    repeat match goal with
      | H : _ :: _ = _ :: _ |- _ => injection H as <- <-
      | H : inr _ = inr _ |- _ => injection H as <-
      end;
    try discriminate; reflexivity.
Qed.

Lemma environment_checks_agree_witness :
  create_agent (fun _ : agent_request => @inl string unit "no such model")
    (fun name =>
       if String.eqb name "BASETEN_API_KEY" then Some EmptyString else None)
  = inl "BASETEN_API_KEY environment variable is required!".
Proof.
  destruct (environment_checks_agree
              (fun _ : agent_request => @inl string unit "no such model")
              (fun name =>
                 if String.eqb name "BASETEN_API_KEY" then Some EmptyString
                 else None)) as (H & _).
  apply (H "BASETEN_API_KEY" ["HUMANLAYER_API_KEY"]). reflexivity.
Defined.

Lemma menu_turn {A : Type} (created : string + A) line rest :
  ends_menu created (PyStr.strip line) = false ->
  menu created (line :: rest) = turn (PyStr.strip line) :: menu created rest.
Proof.
  unfold ends_menu, turn. cbn [menu].
  destruct (String.eqb (PyStr.strip line) "5"); [discriminate|].
  destruct created;
    destruct (String.eqb (PyStr.strip line) "1");
    destruct (String.eqb (PyStr.strip line) "2");
    destruct (String.eqb (PyStr.strip line) "3");
    destruct (String.eqb (PyStr.strip line) "4");
    simpl; intros; try discriminate; reflexivity.
Qed.

Lemma menu_last_turn {A : Type} (created : string + A) line rest :
  ends_menu created (PyStr.strip line) = true ->
  menu created (line :: rest) = [last_turn created (PyStr.strip line)].
Proof.
  unfold ends_menu, last_turn. cbn [menu].
  destruct (String.eqb_spec (PyStr.strip line) "5") as [->|_];
    [reflexivity|].
  destruct created;
    destruct (String.eqb (PyStr.strip line) "1");
    destruct (String.eqb (PyStr.strip line) "2");
    destruct (String.eqb (PyStr.strip line) "3");
    simpl; intros; try discriminate; reflexivity.
Qed.

(** X15: the menu reads one line per turn.  It stops at the first line that
    strips to "5", with the exit message, or, when create_agent raises, at
    the first line that strips to "1", "2" or "3", with that exception
    uncaught; every line before gives one event and nothing after the last
    turn is read.  When no line ends the menu, the loop consumes the whole
    input and ends in EOFError. *)
Theorem menu_stops_at_first_exit {A : Type} (created : string + A)
  (before after : list string) (line : string) :
  Forall (fun l => ends_menu created (PyStr.strip l) = false) before ->
  (ends_menu created (PyStr.strip line) = true ->
   menu created (before ++ line :: after)
   = (map (fun l => turn (PyStr.strip l)) before ++
      [last_turn created (PyStr.strip line)])%list) /\
  menu created before
  = (map (fun l => turn (PyStr.strip l)) before ++ [EOFError])%list.
Proof.
  induction 1 as [|l before Hl _ [IH1 IH2]].
  - split; [|reflexivity]. intros H. now apply menu_last_turn.
  - split.
    + intros H. cbn [app map]. now rewrite (menu_turn _ _ _ Hl), (IH1 H).
    + cbn [map app]. now rewrite (menu_turn _ _ _ Hl), IH2.
Qed.

Lemma menu_stops_at_first_exit_witness :
  menu (@inl string unit "Multi-input tools are not supported")
    ([" 4 "; "seven"] ++ "2" :: ["5"; "1"])
  = [InstagramReel; InvalidChoice;
     Uncaught "Multi-input tools are not supported"].
Proof.
  destruct (menu_stops_at_first_exit
              (@inl string unit "Multi-input tools are not supported")
              [" 4 "; "seven"] ["5"; "1"] "2") as [H _].
  - repeat constructor.
  - apply H. reflexivity.
Defined.

(** * The tools over binary64: delivering twice, and names *)

Lemma b64_basic_commits item n s key info q :
  B64.get_item item (B64.inv s) = Some (key, info) ->
  B64.of_int n = Some q ->
  (q * B64.price info <=? B64.remaining (B64.bud s))%float = true ->
  B64.purchase_basic_item item n s =
  (B64.Purchased n item (q * B64.price info)%float
     (B64.remaining (B64.bud s) - q * B64.price info)%float,
   B64.mk_ledger (B64.sub_stock key n (B64.inv s))
     (B64.debit (q * B64.price info)%float (B64.bud s))).
Proof.
  intros Hg Hq Hf. unfold B64.purchase_basic_item.
  now rewrite b64_for_items_get_item, Hg, Hq, Hf.
Qed.

Lemma b64_exec_cases c s :
  B64.decision (fst (B64.exec c s)) = Committed \/ B64.step s c = s.
Proof. destruct c; b64_cases; auto. Qed.

(** C5, as amended: the tools keep no request identifiers and no stored
    results, so each delivery runs the tool on the ledger as it then is.  A
    request whose first delivery did not commit (a read, a not-found, an
    insufficient-budget or a redirect result, an OverflowError) returns the
    identical result when delivered again and the ledger stays unchanged.
    A purchase_basic_item request that committed is applied again when the
    test [remaining >= cost] passes on the debited budget: two deliveries
    subtract the cost twice and lower the stock twice. *)
Theorem redelivery_runs_the_tool_again (c : B64.call) (s : B64.ledger) :
  (B64.decision (fst (B64.exec c s)) <> Committed ->
   B64.step s c = s /\ B64.exec c (B64.step s c) = B64.exec c s)
  /\
  (forall item n key info q,
     c = B64.PurchaseBasicItem item n ->
     B64.get_item item (B64.inv s) = Some (key, info) ->
     B64.of_int n = Some q ->
     let cost := (q * B64.price info)%float in
     (cost <=? B64.remaining (B64.bud s))%float = true ->
     (cost <=? B64.remaining (B64.bud s) - cost)%float = true ->
     let s2 := B64.run [c; c] s in
     B64.decision (fst (B64.exec c (B64.step s c))) = Committed /\
     B64.remaining (B64.bud s2)
     = (B64.remaining (B64.bud s) - cost - cost)%float /\
     B64.lookup key (B64.inv s2)
     = Some (B64.mk_info (B64.stock info - 2 * n) (B64.price info))).
Proof.
  split.
  - intros Hd. destruct (b64_exec_cases c s) as [Hc|Hs]; [contradiction|].
    split; [exact Hs | now rewrite Hs].
  - intros item n key info q -> Hg Hq cost Hf1 Hf2 s2. subst cost s2.
    pose proof (b64_get_item_sub_stock _ _ _ _ n Hg) as Hg'.
    pose proof (b64_get_item_lookup _ _ _ _ Hg') as Hl.
    unfold B64.run, B64.step. cbn [fold_left B64.exec].
    rewrite (b64_basic_commits _ _ _ _ _ _ Hg Hq Hf1). cbn [snd].
    rewrite (b64_basic_commits item n _ key
               (B64.mk_info (B64.stock info - n) (B64.price info)) q)
      by (cbn [B64.inv B64.bud B64.debit B64.remaining B64.price];
          assumption).
    cbn [fst snd B64.decision B64.inv B64.bud B64.debit B64.remaining
         B64.price].
    repeat split.
    rewrite (b64_lookup_sub_stock_same _ n _ _ Hl).
    cbn [B64.stock B64.price]. do 2 f_equal. lia.
Qed.

Lemma redelivery_runs_the_tool_again_witness :
  let s := B64.mk_ledger B64.INVENTORY (B64.mk_budget 142.89%float 5000%float) in
  let c := B64.PurchaseBasicItem "paper clips" 11 in
  B64.step s c = s /\ B64.exec c (B64.step s c) = B64.exec c s.
Proof.
  intros s c. apply (redelivery_runs_the_tool_again c s).
  vm_compute. discriminate.
Defined.

(** ** Names at the edges *)

(** X6: a name that is empty once lowercased and stripped (an empty name,
    or one made of the characters strip removes) is not rejected: the empty
    key occurs in every catalogue key, so the name resolves to the first
    entry of the catalogue.  check_inventory reports that entry, and
    purchase_basic_item buys it when the quantity converts and the funds
    check passes. *)
Theorem blank_name_takes_first_entry item s key info rest :
  PyStr.strip (PyStr.lower item) = EmptyString ->
  B64.inv s = (key, info) :: rest ->
  B64.get_item item (B64.inv s) = Some (key, info) /\
  B64.check_inventory item s
  = (B64.InStock item (B64.stock info) (B64.price info), s) /\
  (forall n q,
     B64.of_int n = Some q ->
     let cost := (q * B64.price info)%float in
     (cost <=? B64.remaining (B64.bud s))%float = true ->
     B64.purchase_basic_item item n s
     = (B64.Purchased n item cost (B64.remaining (B64.bud s) - cost)%float,
        B64.mk_ledger
          ((key, B64.mk_info (B64.stock info - n) (B64.price info)) :: rest)
          (B64.debit cost (B64.bud s)))).
Proof.
  intros Hblank Hinv.
  assert (Hget : B64.get_item item (B64.inv s) = Some (key, info)).
  { unfold B64.get_item. rewrite Hblank, Hinv. simpl.
    unfold fuzzy_match. now rewrite contains_empty. }
  split; [exact Hget|]. split.
  - unfold B64.check_inventory. now rewrite b64_for_items_get_item, Hget.
  - intros n q Hq cost Hf. subst cost. unfold B64.purchase_basic_item.
    rewrite b64_for_items_get_item, Hget, Hq, Hf.
    rewrite Hinv. simpl. now rewrite String.eqb_refl.
Qed.

Lemma blank_name_takes_first_entry_witness :
  let blank := String (ascii_of_nat 160) (String (ascii_of_nat 133) " ") in
  B64.get_item blank B64.INVENTORY
  = Some ("paper clips", B64.mk_info 500 12.99%float) /\
  B64.check_inventory blank B64.seeded
  = (B64.InStock blank 500 12.99%float, B64.seeded).
Proof.
  intros blank.
  destruct (blank_name_takes_first_entry blank B64.seeded "paper clips"
              (B64.mk_info 500 12.99%float) (tl B64.INVENTORY)
              eq_refl eq_refl) as (H1 & H2 & _).
  split; assumption.
Defined.

(** ** Tools used one after the other *)

Lemma b64_check_inventory_found item s st p :
  fst (B64.check_inventory item s) = B64.InStock item st p ->
  exists key, B64.get_item item (B64.inv s) = Some (key, B64.mk_info st p).
Proof.
  unfold B64.check_inventory. rewrite b64_for_items_get_item.
  destruct (B64.get_item _ _) as [[k [st' p']]|]; simpl; [|discriminate].
  intros [= <- <-]. now exists k.
Qed.

(** X9: check_inventory and purchase_basic_item agree on the entry a name
    stands for.  If check_inventory reports [st] units at price [p] for a
    name, a purchase of [n] units under the same name computes the cost
    [float(n) * p]; when the test [remaining >= cost] passes it is charged
    that cost and check_inventory then reports [st - n] units at the same
    price; when the test fails check_inventory reports what it did
    before. *)
Theorem check_buy_check item n q s st p :
  fst (B64.check_inventory item s) = B64.InStock item st p ->
  B64.of_int n = Some q ->
  let cost := (q * p)%float in
  let after := snd (B64.purchase_basic_item item n s) in
  ((cost <=? B64.remaining (B64.bud s))%float = true ->
   fst (B64.purchase_basic_item item n s)
   = B64.Purchased n item cost (B64.remaining (B64.bud s) - cost)%float /\
   fst (B64.check_inventory item after) = B64.InStock item (st - n) p) /\
  ((cost <=? B64.remaining (B64.bud s))%float = false ->
   fst (B64.purchase_basic_item item n s)
   = B64.InsufficientBudget cost (B64.remaining (B64.bud s)) /\
   fst (B64.check_inventory item after) = B64.InStock item st p).
Proof.
  intros Hcheck Hq cost after. subst cost after.
  destruct (b64_check_inventory_found _ _ _ _ Hcheck) as [k Hg].
  unfold B64.purchase_basic_item.
  rewrite b64_for_items_get_item, Hg, Hq. cbn [B64.price].
  split; intros Hf; rewrite Hf; cbn [fst snd]; (split; [reflexivity|]).
  - unfold B64.check_inventory. rewrite b64_for_items_get_item.
    cbn [B64.inv]. now rewrite (b64_get_item_sub_stock _ _ _ _ n Hg).
  - exact Hcheck.
Qed.

Lemma check_buy_check_witness :
  let s := B64.mk_ledger B64.INVENTORY (B64.mk_budget 142.89%float 5000%float) in
  fst (B64.purchase_basic_item "Paper Clip" 11 s)
  = B64.InsufficientBudget (11 * 12.99)%float 142.89%float /\
  fst (B64.check_inventory "Paper Clip"
         (snd (B64.purchase_basic_item "Paper Clip" 11 s)))
  = B64.InStock "Paper Clip" 500 12.99%float.
Proof.
  intros s.
  destruct (check_buy_check "Paper Clip" 11 11%float s 500 12.99%float
              eq_refl eq_refl) as [_ H].
  apply H. reflexivity.
Defined.
